(** * Timesheet: the Excel access layer ([timesheet_app/excel_manager.py])

    A shallow embedding of [_normalise], [load_reference_data],
    [append_time_entry] and [create_template], and the properties of the
    three operations: normalisation of the reference lists, the choice of the
    row a time entry is written to, the frame of that write, the errors
    raised, and the shape of a new template.

    Conventions of the embedding.
    - A Python [str] is the list of its code points ([unicode]).
    - A cell value is a [Value]; floating point cell values are not
      represented.  [elapsed_seconds] is a Python number ([Number]): an
      integer or a float, a float being an IEEE 754 binary64 value.
    - A worksheet is openpyxl's sparse dictionary of cells keyed by
      (row, column), both counted from 1.  A cell carries a value and a
      style; the style layer of openpyxl is a parameter ([StyleLayer]).
    - The file system maps a path to what is stored there.  An XLSX file is
      represented by the workbook that was saved to it: [files] records
      what was handed to [save], and [load_workbook] returns it.  What the
      writer and the reader of openpyxl make of a value on its way through
      a file is stated apart ([FileFormat]).  Cells hold values, not
      formulas, so that the two ways the program loads a workbook (with
      and without [data_only]) do not differ.  A save fails where the file
      cannot be opened for writing, with the exception of that.
    - Code that can raise runs in the state-and-exception monad [M]. *)

From Stdlib Require Import ZArith String Ascii DecimalString.
From Stdlib Require SpecFloat.
From stdpp Require Import gmap strings list fin_maps.

Local Open Scope Z_scope.

(** ** Text *)

Module Text.

(** A Python [str]: a sequence of Unicode code points. *)
Definition unicode := list N.

Definition ascii_text (s : string) : unicode :=
  N_of_ascii <$> list_ascii_of_string s.

(** Decoder for the UTF-8 bytes of a literal of this file. *)
Fixpoint utf8_decode (bs : list N) : unicode :=
  match bs with
  | [] => []
  | b :: t =>
    if (b <? 128)%N then b :: utf8_decode t
    else if (b <? 224)%N then
      match t with
      | c1 :: t1 => ((b - 192) * 64 + (c1 - 128))%N :: utf8_decode t1
      | _ => []
      end
    else if (b <? 240)%N then
      match t with
      | c1 :: c2 :: t2 =>
        ((b - 224) * 4096 + (c1 - 128) * 64 + (c2 - 128))%N :: utf8_decode t2
      | _ => []
      end
    else
      match t with
      | c1 :: c2 :: c3 :: t3 =>
        ((b - 240) * 262144 + (c1 - 128) * 4096 + (c2 - 128) * 64 + (c3 - 128))%N
          :: utf8_decode t3
      | _ => []
      end
  end.

(** The text of a literal. *)
Definition u (s : string) : unicode := utf8_decode (ascii_text s).

(** [str.isspace] on one code point: the code points Python's Unicode
    database classes as whitespace. *)
Definition isspace (c : N) : bool :=
  ((9 <=? c) && (c <=? 13) || (28 <=? c) && (c <=? 32)
   || (c =? 133) || (c =? 160) || (c =? 5760)
   || (8192 <=? c) && (c <=? 8202)
   || (c =? 8232) || (c =? 8233) || (c =? 8239) || (c =? 8287)
   || (c =? 12288))%N.

Fixpoint lstrip (s : unicode) : unicode :=
  match s with
  | [] => []
  | c :: t => if isspace c then lstrip t else s
  end.

Definition rstrip (s : unicode) : unicode := reverse (lstrip (reverse s)).

(** [s.strip()] *)
Definition strip (s : unicode) : unicode := rstrip (lstrip s).

(** [sep.join(parts)] *)
Fixpoint join (sep : unicode) (parts : list unicode) : unicode :=
  match parts with
  | [] => []
  | [p] => p
  | p :: rest => p ++ sep ++ join sep rest
  end.

(** Decimal digits of a natural number, and of an integer (["%d"]). *)
Definition digits (n : N) : unicode :=
  ascii_text (NilZero.string_of_uint (N.to_uint n)).

Definition str_int (n : Z) : unicode :=
  ascii_text (NilZero.string_of_int (Z.to_int n)).

(** ["%0wd"] on a natural number. *)
Definition zfill (w : nat) (n : N) : unicode :=
  let d := digits n in replicate (w - length d)%nat 48%N ++ d.

(** [x in s] for strings: [x] occurs in [s] as a contiguous piece. *)
Definition occurs_in (x s : unicode) : Prop :=
  ∃ before after, s = before ++ x ++ after.

End Text.
Export Text.

(** ** Values held by cells *)

Record date := Date { year : N; month : N; day : N }.

Record datetime := Datetime {
  dt_date : date; hour : N; minute : N; second : N; microsecond : N }.

(** [datetime.timedelta] in its normal form: [0 <= seconds < 86400],
    [0 <= microseconds < 1000000], the sign carried by [days]. *)
Record timedelta := Timedelta { days : Z; seconds : Z; microseconds : Z }.

(** A Python number as [elapsed_seconds] takes them: an [int], or a [float],
    which is a binary64 value: a zero, an infinity, a NaN, or plus or minus
    [m * 2 ^ e]. *)
Inductive Number :=
| PyInt (n : Z)
| PyFloat (f : SpecFloat.spec_float).

Coercion PyInt : Z >-> Number.

(** [x < 0] *)
Definition negative (x : Number) : bool :=
  match x with
  | PyInt n => n <? 0
  | PyFloat (SpecFloat.S754_finite s _ _) => s
  | PyFloat (SpecFloat.S754_infinity s) => s
  | PyFloat _ => false
  end.

(** 1000000.0 *)
Definition float_1e6 : SpecFloat.spec_float := SpecFloat.S754_finite false 15625 6.

(** [math.modf] on plus or minus [m * 2 ^ e]: the fractional part, which is
    exact, and the whole part as an integer, both with the sign. *)
Definition modf (s : bool) (m : positive) (e : Z) : SpecFloat.spec_float * Z :=
  if 0 <=? e then (SpecFloat.S754_zero s, SpecFloat.cond_Zopp s (Z.pos m * 2 ^ e))
  else
    (match Z.pos m mod 2 ^ (- e) with
     | Z.pos r => SpecFloat.S754_finite s r e
     | _ => SpecFloat.S754_zero s
     end,
     SpecFloat.cond_Zopp s (Z.pos m / 2 ^ (- e))).

(** The integer nearest to a finite float, the even one of two that are
    equally near. *)
Definition round_half_even (f : SpecFloat.spec_float) : Z :=
  match f with
  | SpecFloat.S754_finite s m e =>
    if 0 <=? e then SpecFloat.cond_Zopp s (Z.pos m * 2 ^ e)
    else
      let q := Z.pos m / 2 ^ (- e) in
      let r := Z.pos m mod 2 ^ (- e) in
      let half := 2 ^ (- e - 1) in
      SpecFloat.cond_Zopp s
        (if r <? half then q
         else if half <? r then q + 1
         else if Z.even q then q else q + 1)
  | _ => 0
  end.

Inductive Value :=
| VNone
| VStr (s : unicode)
| VInt (n : Z)
| VBool (b : bool)
| VDate (d : date)
| VDatetime (t : datetime)
| VTimedelta (d : timedelta).

#[global] Instance date_eq_dec : EqDecision date.
Proof. solve_decision. Defined.
#[global] Instance datetime_eq_dec : EqDecision datetime.
Proof. solve_decision. Defined.
#[global] Instance timedelta_eq_dec : EqDecision timedelta.
Proof. solve_decision. Defined.
#[global] Instance Value_eq_dec : EqDecision Value.
Proof. solve_decision. Defined.

(** [value is None] *)
Definition is_None (v : Value) : bool :=
  match v with VNone => true | _ => false end.

Definition str_date (d : date) : unicode :=
  zfill 4 (year d) ++ u "-" ++ zfill 2 (month d) ++ u "-" ++ zfill 2 (day d).

Definition str_datetime (t : datetime) : unicode :=
  str_date (dt_date t) ++ u " " ++ zfill 2 (hour t) ++ u ":"
    ++ zfill 2 (minute t) ++ u ":" ++ zfill 2 (second t)
    ++ (if (microsecond t =? 0)%N then [] else u "." ++ zfill 6 (microsecond t)).

Definition str_timedelta (d : timedelta) : unicode :=
  let mm := seconds d / 60 in
  let ss := seconds d mod 60 in
  let hh := mm / 60 in
  let mm := mm mod 60 in
  let s := str_int hh ++ u ":" ++ zfill 2 (Z.to_N mm) ++ u ":" ++ zfill 2 (Z.to_N ss) in
  let s :=
    if days d =? 0 then s
    else str_int (days d) ++ u " day" ++ (if Z.abs (days d) =? 1 then [] else u "s")
           ++ u ", " ++ s in
  if microseconds d =? 0 then s
  else s ++ u "." ++ zfill 6 (Z.to_N (microseconds d)).

(** [str(value)] *)
Definition str (v : Value) : unicode :=
  match v with
  | VNone => u "None"
  | VStr s => s
  | VInt n => str_int n
  | VBool b => if b then u "True" else u "False"
  | VDate d => str_date d
  | VDatetime t => str_datetime t
  | VTimedelta d => str_timedelta d
  end.

(** ** [_normalise] *)

(** The loop of [_normalise]; [items] is the list built so far. *)
Fixpoint _normalise_loop (values : list Value) (items : list unicode) : list unicode :=
  match values with
  | [] => items
  | value :: rest =>
    if is_None value then _normalise_loop rest items
    else
      let text := strip (str value) in
      if bool_decide (text ≠ []) && bool_decide (text ∉ items)
      then _normalise_loop rest (items ++ [text])
      else _normalise_loop rest items
  end.

Definition _normalise (values : list Value) : list unicode :=
  _normalise_loop values [].

(** The normalisation in the words of its description: the candidate of a
    value is its stripped text, null values and empty texts give none, and a
    candidate is kept where it occurs for the first time. *)
Definition candidate (v : Value) : option unicode :=
  if is_None v then None
  else let text := strip (str v) in if bool_decide (text = []) then None else Some text.

Definition first_occurrences (l : list unicode) : list unicode :=
  omap (λ i, x ← l !! i; if bool_decide (x ∈ take i l) then None else Some x)
       (seq 0 (length l)).

Definition normalise_spec (values : list Value) : list unicode :=
  first_occurrences (omap candidate values).


(** ** Exceptions and the monad of the operations *)

Inductive exn :=
| FileNotFoundError (msg : unicode)
| ExcelStructureError (msg : unicode)
| OverflowError
| IllegalCharacterError
| ValueError
| KeyError
| InvalidFileException
| BadZipFile
| PermissionError
| StyleError.

(** A computation over a state [S] that returns an [A] or raises. *)
Definition M (S A : Type) : Type := S → (exn + A) * S.

Definition ret {S A} (a : A) : M S A := λ s, (inr a, s).

Definition raise {S A} (e : exn) : M S A := λ s, (inl e, s).

Definition bind {S A B} (m : M S A) (k : A → M S B) : M S B :=
  λ s, match m s with
       | (inl e, s') => (inl e, s')
       | (inr a, s') => k a s'
       end.

Definition get {S} : M S S := λ s, (inr s, s).

Definition modify {S} (f : S → S) : M S unit := λ s, (inr tt, f s).

Definition lift {S A} (r : exn + A) : M S A := λ s, (r, s).

(** [try: m except Exception: pass] *)
Definition try_pass {S} (m : M S unit) : M S unit :=
  λ s, match m s with
       | (inl _, s') => (inr tt, s')
       | r => r
       end.

(** Run a computation on a local object, inside a computation on [S]: an
    exception propagates, the local object is returned on success. *)
Definition on_local {S L A} (m : M L A) (l : L) : M S (A * L) :=
  λ s, match m l with
       | (inl e, _) => (inl e, s)
       | (inr a, l') => (inr (a, l'), s)
       end.

#[global] Instance M_ret {S} : MRet (M S) := λ A, ret.
#[global] Instance M_bind {S} : MBind (M S) := λ A B k m, bind m k.
#[global] Typeclasses Opaque M.

(** ** openpyxl: cells, worksheets, workbooks *)

(** The style layer of openpyxl, kept abstract: what a style is, the style of
    a new cell, what binding a value does to a cell's style (date and time
    values receive a number format), and the assignment to
    [cell.number_format], which may raise and may change the style. *)
Class StyleLayer := {
  Style : Type;
  default_style : Style;
  bind_style : Value → Style → Style;
  set_number_format : unicode → Style → (exn + unit) * Style;
}.

Section Openpyxl.
Context `{StyleLayer}.

Record Cell := { value : Value; style : Style }.

(** [Cell(ws, row, column)] *)
Definition new_cell : Cell := {| value := VNone; style := default_style |}.

(** The characters [ILLEGAL_CHARACTERS_RE] matches. *)
Definition illegal_character (c : N) : bool :=
  ((c <=? 8) || (11 <=? c) && (c <=? 12) || (14 <=? c) && (c <=? 31))%N.

(** [Cell.check_string]: a string is cut to 32767 characters and refused
    when it holds a control character. *)
Definition check_string (s : unicode) : exn + unicode :=
  let s := take (N.to_nat 32767) s in
  if existsb illegal_character s then inl IllegalCharacterError else inr s.

(** [cell.value = v] *)
Definition bind_value (v : Value) (c : Cell) : exn + Cell :=
  match v with
  | VStr s =>
    match check_string s with
    | inl e => inl e
    | inr s => inr {| value := VStr s; style := bind_style (VStr s) (style c) |}
    end
  | _ => inr {| value := v; style := bind_style v (style c) |}
  end.

(** A worksheet: its title, the dictionary [_cells] keyed by (row, column)
    and the counter [_current_row]. *)
Record Worksheet := {
  title : unicode;
  _cells : gmap (nat * nat) Cell;
  _current_row : nat;
}.

(** [Worksheet(parent, title)] *)
Definition new_sheet (t : unicode) : Worksheet :=
  {| title := t; _cells := ∅; _current_row := 0 |}.

(** [ws.max_row] and [ws.max_column]: the largest row (column) of a key of
    [_cells], 1 for a sheet without cells. *)
Definition max_row (ws : Worksheet) : nat :=
  match map_to_list (_cells ws) with
  | [] => 1
  | kcs => max_list ((λ kc : nat * nat * Cell, kc.1.1) <$> kcs)
  end.

Definition max_column (ws : Worksheet) : nat :=
  match map_to_list (_cells ws) with
  | [] => 1
  | kcs => max_list ((λ kc : nat * nat * Cell, kc.1.2) <$> kcs)
  end.

(** What a cell position shows: the cell stored there, and for a position
    without a cell the cell that [ws.cell] would create. *)
Definition view (ws : Worksheet) (k : nat * nat) : Cell :=
  default new_cell (_cells ws !! k).

(** [ws.cell(row, column)]: the cell at that position, created empty when
    the dictionary has none.  The result refers to the cell by its key. *)
Definition cell (row column : nat) : M Worksheet (nat * nat) :=
  λ ws,
    if (row <? 1)%nat || (column <? 1)%nat then (inl ValueError, ws)
    else
      match _cells ws !! (row, column) with
      | Some _ => (inr (row, column), ws)
      | None =>
        (inr (row, column),
         {| title := title ws;
            _cells := <[(row, column) := new_cell]> (_cells ws);
            _current_row := _current_row ws `max` row |})
      end.

(** [c.value], for a cell reference [c] *)
Definition get_value (k : nat * nat) : M Worksheet Value :=
  λ ws, (inr (value (view ws k)), ws).

Definition put_cell (k : nat * nat) (c : Cell) (ws : Worksheet) : Worksheet :=
  {| title := title ws; _cells := <[k := c]> (_cells ws);
     _current_row := _current_row ws |}.

(** [c.value = v] *)
Definition set_value (k : nat * nat) (v : Value) : M Worksheet unit :=
  λ ws, match bind_value v (view ws k) with
        | inl e => (inl e, ws)
        | inr c => (inr tt, put_cell k c ws)
        end.

(** [c.number_format = fmt] *)
Definition assign_number_format (k : nat * nat) (fmt : unicode) : M Worksheet unit :=
  λ ws, let c := view ws k in
        let '(r, st) := set_number_format fmt (style c) in
        (r, put_cell k {| value := value c; style := st |} ws).

(** [ws.append(values)]: a new row after [_current_row]. *)
Fixpoint append_cells (row col : nat) (values : list Value)
    (cells : gmap (nat * nat) Cell) : exn + gmap (nat * nat) Cell :=
  match values with
  | [] => inr cells
  | v :: rest =>
    match bind_value v new_cell with
    | inl e => inl e
    | inr c => append_cells row (S col) rest (<[(row, col) := c]> cells)
    end
  end.

Definition append (values : list Value) : M Worksheet unit :=
  λ ws, let row_idx := (_current_row ws + 1)%nat in
        match append_cells row_idx 1 values (_cells ws) with
        | inl e => (inl e, ws)
        | inr cells =>
          (inr tt, {| title := title ws; _cells := cells; _current_row := row_idx |})
        end.

(** [ws.iter_rows(values_only=True)]: nothing for a sheet that never got a
    cell, else the rows 1 to [max_row], each over the columns 1 to
    [max_column]. *)
Definition iter_rows (ws : Worksheet) : list (list Value) :=
  if (_current_row ws =? 0)%nat then []
  else (λ r, (λ c, value (view ws (r, c))) <$> seq 1 (max_column ws))
         <$> seq 1 (max_row ws).

(** A workbook: its sheets in order.  A sheet object is referred to by its
    position in [_sheets]. *)
Record Workbook := { _sheets : list Worksheet; _active_sheet_index : nat }.

(** [Workbook()]: one sheet, titled "Sheet". *)
Definition new_workbook : Workbook :=
  {| _sheets := [new_sheet (u "Sheet")]; _active_sheet_index := 0 |}.

Definition sheetnames (wb : Workbook) : list unicode := title <$> _sheets wb.

(** [name in wb] *)
Definition contains (wb : Workbook) (name : unicode) : bool :=
  bool_decide (name ∈ sheetnames wb).

Fixpoint index_of (name : unicode) (sheets : list Worksheet) : option nat :=
  match sheets with
  | [] => None
  | ws :: rest =>
    if bool_decide (title ws = name) then Some 0%nat
    else S <$> index_of name rest
  end.

(** [wb[name]]: the first sheet of that title. *)
Definition getitem (name : unicode) : M Workbook nat :=
  λ wb, match index_of name (_sheets wb) with
        | Some i => (inr i, wb)
        | None => (inl KeyError, wb)
        end.

(** [wb.active] *)
Definition active (wb : Workbook) : option nat :=
  if (_active_sheet_index wb <? length (_sheets wb))%nat
  then Some (_active_sheet_index wb) else None.

(** [wb.remove(sheet)] *)
Definition remove (sheet : option nat) : M Workbook unit :=
  λ wb, match sheet with
        | Some i =>
          (inr tt, {| _sheets := delete i (_sheets wb);
                      _active_sheet_index := _active_sheet_index wb |})
        | None => (inl ValueError, wb)
        end.

(** [wb.create_sheet(title)]: a new empty sheet after the others.  (A title
    already in use is renamed by openpyxl; [create_template] gives each of
    its sheets a title no other sheet has.) *)
Definition create_sheet (t : unicode) : M Workbook nat :=
  λ wb, (inr (length (_sheets wb)),
         {| _sheets := _sheets wb ++ [new_sheet t];
            _active_sheet_index := _active_sheet_index wb |}).

(** Run a worksheet computation on the sheet a reference points to. *)
Definition in_sheet {A} (i : nat) (m : M Worksheet A) : M Workbook A :=
  λ wb, match _sheets wb !! i with
        | None => (inl KeyError, wb)
        | Some ws =>
          let '(r, ws') := m ws in
          (r, {| _sheets := <[i := ws']> (_sheets wb);
                 _active_sheet_index := _active_sheet_index wb |})
        end.

(** ** Files *)

(** What an XLSX file holds: the sheets in order, each a title and its
    cells.  For a file that was saved these are the cells of the workbook
    handed to [save]; what the writer stores for them and what a reader
    yields again is the matter of [FileFormat] below. *)
Definition Document : Type := list (unicode * gmap (nat * nat) Cell).

(** A file: a workbook, or a file that the reader refuses with the exception
    [e] ([zipfile.BadZipFile] for a file that is no archive,
    [InvalidFileException] for a format openpyxl does not take). *)
Inductive File :=
| Xlsx (doc : Document)
| NotXlsx (e : exn).

Inductive Event :=
| EvExists (path : unicode)
| EvLoad (path : unicode)
| EvSave (path : unicode).

(** The world an operation runs in: the files by path, the paths that cannot
    be opened for writing and the exception that opening them raises
    ([PermissionError], [FileNotFoundError] for a missing directory, ...),
    the clock, and the file operations attempted so far.  A save that fails
    once the file is open is not modelled. *)
Record World := {
  files : gmap unicode File;
  unwritable : gset unicode;
  save_error : unicode → exn;
  clock : datetime;
  trace : list Event;
}.

Definition log (e : Event) : M World unit :=
  modify (λ w, {| files := files w; unwritable := unwritable w; save_error := save_error w;
                  clock := clock w; trace := trace w ++ [e] |}).

(** [Path(path).exists()] *)
Definition path_exists (path : unicode) : M World bool :=
  log (EvExists path);;
  w ← get;
  mret (bool_decide (is_Some (files w !! path))).

(** The worksheet the reader builds: [_current_row] is [max_row] when the
    sheet has cells. *)
Definition read_sheet (s : unicode * gmap (nat * nat) Cell) : Worksheet :=
  let ws := {| title := s.1; _cells := s.2; _current_row := 0 |} in
  if bool_decide (s.2 = ∅) then ws
  else {| title := s.1; _cells := s.2; _current_row := max_row ws |}.

Definition read_document (doc : Document) : Workbook :=
  {| _sheets := read_sheet <$> doc; _active_sheet_index := 0 |}.

Definition write_document (wb : Workbook) : Document :=
  (λ ws, (title ws, _cells ws)) <$> _sheets wb.

(** [load_workbook(path)] *)
Definition load_workbook (path : unicode) : M World Workbook :=
  log (EvLoad path);;
  w ← get;
  match files w !! path with
  | Some (Xlsx doc) => mret (read_document doc)
  | Some (NotXlsx e) => raise e
  | None => raise (FileNotFoundError path)
  end.

(** [wb.save(path)] *)
Definition save (wb : Workbook) (path : unicode) : M World unit :=
  log (EvSave path);;
  w ← get;
  if bool_decide (path ∈ unwritable w) then raise (save_error w path)
  else modify (λ w, {| files := <[path := Xlsx (write_document wb)]> (files w);
                       unwritable := unwritable w; save_error := save_error w; clock := clock w;
                       trace := trace w |}).

(** [datetime.now()] *)
Definition now : M World datetime := w ← get; mret (clock w).

(** The duration of a number of microseconds: the normal form, refused when
    the number of days exceeds 999999999 in magnitude. *)
Definition microseconds_to_delta (us : Z) : exn + timedelta :=
  let s := us / 1000000 in
  let d := s / 86400 in
  if 999999999 <? Z.abs d then inl OverflowError
  else inr {| days := d; seconds := s mod 86400; microseconds := us mod 1000000 |}.

(** [timedelta(seconds=x)].  An integer counts a million microseconds each.
    Of a float the whole part does the same and the fractional part, times
    1000000.0 in floating point, is rounded to a whole number of
    microseconds, half to even; an infinity and a NaN are refused when the
    whole part is taken. *)
Definition timedelta_of_seconds (x : Number) : exn + timedelta :=
  match x with
  | PyInt n => microseconds_to_delta (n * 1000000)
  | PyFloat (SpecFloat.S754_zero _) => microseconds_to_delta 0
  | PyFloat (SpecFloat.S754_finite s m e) =>
    let '(frac, whole) := modf s m e in
    microseconds_to_delta
      (whole * 1000000 + round_half_even (SpecFloat.SFmul 53 1024 float_1e6 frac))
  | PyFloat (SpecFloat.S754_infinity _) => inl OverflowError
  | PyFloat SpecFloat.S754_nan => inl ValueError
  end.

(** [range(a, b)] *)
Definition range (a b : nat) : list nat := seq a (b - a).

(** [enumerate(l, start)] *)
Definition enumerate {A} (start : nat) (l : list A) : list (nat * A) :=
  zip (seq start (length l)) l.

(** ** The program *)

Definition REFERENCE_SHEET : unicode := u "Справочник".
Definition TIMESHEET_SHEET : unicode := u "Учет времени".

Definition not_found_message (path : unicode) : unicode :=
  u "Excel file not found: " ++ path.

Definition structure_message (sheet : unicode) (workbook : Workbook) : unicode :=
  u "Workbook must contain sheet '" ++ sheet ++ u "'. Found: "
    ++ join (u ", ") (sheetnames workbook).

(** [project, work_type, *_ = row + (None, None)] *)
Definition unpack (row : list Value) : Value * Value :=
  match row ++ [VNone; VNone] with
  | project :: work_type :: _ => (project, work_type)
  | _ => (VNone, VNone)
  end.

(** The loop of [load_reference_data] over the enumerated rows. *)
Fixpoint collect (rows : list (nat * list Value)) (projects work_types : list Value)
    : list Value * list Value :=
  match rows with
  | [] => (projects, work_types)
  | (idx, row) :: rest =>
    if (idx =? 1)%nat then collect rest projects work_types
    else
      let '(project, work_type) := unpack row in
      collect rest (projects ++ [project]) (work_types ++ [work_type])
  end.

(** The two lists computed from the rows of the reference sheet. *)
Definition reference_lists (rows : list (list Value)) : list unicode * list unicode :=
  let '(projects, work_types) := collect (enumerate 1 rows) [] [] in
  (_normalise projects, _normalise work_types).

Definition load_reference_data (path : unicode)
    : M World (list unicode * list unicode) :=
  e ← path_exists path;
  if negb e then raise (FileNotFoundError (not_found_message path))
  else
    workbook ← load_workbook path;
    if negb (contains workbook REFERENCE_SHEET)
    then raise (ExcelStructureError (structure_message REFERENCE_SHEET workbook))
    else
      '(sheet, _) ← on_local (i ← getitem REFERENCE_SHEET; in_sheet i get) workbook;
      mret (reference_lists (iter_rows sheet)).

(** [is_empty_row(r)] of [append_time_entry] *)
Definition is_empty_row (r : nat) : M Worksheet bool :=
  c1 ← cell r 1; v1 ← get_value c1;
  if negb (is_None v1) then mret false
  else
    c2 ← cell r 2; v2 ← get_value c2;
    if negb (is_None v2) then mret false
    else
      c3 ← cell r 3; v3 ← get_value c3;
      if negb (is_None v3) then mret false
      else
        c4 ← cell r 4; v4 ← get_value c4;
        mret (is_None v4).

(** The [for] loop with its [break]. *)
Fixpoint find_row (rows : list nat) : M Worksheet (option nat) :=
  match rows with
  | [] => mret None
  | r :: rest =>
    e ← is_empty_row r;
    if (e : bool) then mret (Some r) else find_row rest
  end.

(** The search for the target row. *)
Definition search_target_row : M Worksheet nat :=
  sheet ← get;
  let first := 2%nat in
  let last := max_row sheet in
  target_row ← find_row (range first (last + 1));
  mret (match target_row with
        | Some r => r
        | None => (last + 1)%nat
        end).

(** The four writes and the number format. *)
Definition write_row (target_row : nat) (timestamp : datetime)
    (project work_type : unicode) (duration : timedelta) : M Worksheet unit :=
  c ← cell target_row 1; set_value c (VDate (dt_date timestamp));;
  c ← cell target_row 2; set_value c (VStr project);;
  c ← cell target_row 3; set_value c (VStr work_type);;
  cell_duration ← cell target_row 4;
  set_value cell_duration (VTimedelta duration);;
  try_pass (assign_number_format cell_duration (u "[h]:mm:ss")).

Definition append_time_entry (path : unicode) (project work_type : unicode)
    (elapsed_seconds : Number) (finished_at : option datetime) : M World unit :=
  e ← path_exists path;
  if negb e then raise (FileNotFoundError (not_found_message path))
  else
    workbook ← load_workbook path;
    if negb (contains workbook TIMESHEET_SHEET)
    then raise (ExcelStructureError (structure_message TIMESHEET_SHEET workbook))
    else
      '(sheet, workbook) ← on_local (getitem TIMESHEET_SHEET) workbook;
      timestamp ← match finished_at with
                  | Some t => mret t
                  | None => now
                  end;
      duration ← lift (timedelta_of_seconds elapsed_seconds);
      '(_, workbook) ←
        on_local (in_sheet sheet (target_row ← search_target_row;
                                  write_row target_row timestamp project work_type duration))
                 workbook;
      save workbook path.

Definition create_template (path : unicode) : M World unit :=
  '(_, wb) ←
    on_local (wb ← get;
              let default := active wb in
              remove default;;
              ws_ref ← create_sheet REFERENCE_SHEET;
              in_sheet ws_ref (append [VStr (u "Проект"); VStr (u "Вид работ")]);;
              ws_ts ← create_sheet TIMESHEET_SHEET;
              in_sheet ws_ts (append [VStr (u "Дата"); VStr (u "Проект");
                                      VStr (u "Вид работ"); VStr (u "Длительность")]))
             new_workbook;
  save wb path.

End Openpyxl.

(** * Properties *)

(** ** Stripping *)

Lemma lstrip_head s c : head (lstrip s) = Some c → isspace c = false.
Proof.
  induction s as [|a s IH]; simpl; [done|].
  destruct (isspace a) eqn:Ha; [done|].
  simpl. by intros [= <-].
Qed.

Lemma lstrip_suffix s : lstrip s `suffix_of` s.
Proof.
  induction s as [|a s IH]; simpl; [done|].
  destruct (isspace a); [|done].
  by apply suffix_cons_r.
Qed.

Lemma rstrip_prefix s : rstrip s `prefix_of` s.
Proof.
  unfold rstrip.
  destruct (lstrip_suffix (reverse s)) as [k Hk].
  exists (reverse k).
  rewrite <- reverse_app, <- Hk. by rewrite reverse_involutive.
Qed.

Lemma rstrip_last s c : last (rstrip s) = Some c → isspace c = false.
Proof. unfold rstrip. rewrite last_reverse. apply lstrip_head. Qed.

(** A stripped text neither starts nor ends with whitespace. *)
Lemma strip_ends s c :
  head (strip s) = Some c ∨ last (strip s) = Some c → isspace c = false.
Proof.
  unfold strip. intros [Hc|Hc]; [|by eapply rstrip_last].
  destruct (rstrip_prefix (lstrip s)) as [k Hk].
  apply (lstrip_head s). rewrite Hk.
  destruct (rstrip (lstrip s)); [done|]. exact Hc.
Qed.

(** ** First occurrences *)

Lemma first_occurrences_snoc l x :
  first_occurrences (l ++ [x])
  = first_occurrences l ++ (if bool_decide (x ∈ l) then [] else [x]).
Proof.
  unfold first_occurrences.
  rewrite length_app, Nat.add_comm. simpl length.
  rewrite seq_S, omap_app. simpl. f_equal.
  - apply list_omap_ext, Forall2_same_length_lookup_2; [done|].
    intros i a b Ha Hb.
    assert (a = b) as <- by congruence.
    apply lookup_seq in Ha as [-> Hi]. simpl.
    rewrite lookup_app_l by done.
    by rewrite take_app_le by lia.
  - rewrite list_lookup_middle by done. simpl.
    rewrite take_app_length. by destruct (bool_decide (x ∈ l)).
Qed.

Lemma first_occurrences_elem l x : x ∈ first_occurrences l ↔ x ∈ l.
Proof.
  induction l as [|y l IH] using rev_ind; [done|].
  rewrite first_occurrences_snoc, !elem_of_app, IH.
  case_bool_decide as Hy.
  - rewrite elem_of_nil. split; [intros [?|[]]; by left|].
    intros [?| ->%list_elem_of_singleton]; by left.
  - tauto.
Qed.

Lemma first_occurrences_NoDup l : NoDup (first_occurrences l).
Proof.
  induction l as [|y l IH] using rev_ind; [constructor|].
  rewrite first_occurrences_snoc.
  case_bool_decide; [by rewrite app_nil_r|].
  apply NoDup_app. split_and!; [done| |apply NoDup_singleton].
  intros z Hz Hy%list_elem_of_singleton.
  apply (proj1 (first_occurrences_elem _ _)) in Hz. subst. contradiction.
Qed.

Lemma first_occurrences_sublist l : first_occurrences l `sublist_of` l.
Proof.
  induction l as [|y l IH] using rev_ind; [done|].
  rewrite first_occurrences_snoc.
  case_bool_decide.
  - rewrite app_nil_r. by apply sublist_inserts_r.
  - by apply sublist_app.
Qed.

(** ** [_normalise] computes the first occurrences of the candidates *)

Lemma _normalise_loop_spec values seen :
  _normalise_loop values (first_occurrences seen)
  = first_occurrences (seen ++ omap candidate values).
Proof.
  revert seen. induction values as [|v values IH]; intros seen.
  { simpl. by rewrite app_nil_r. }
  cbn [_normalise_loop omap list_omap].
  destruct (is_None v) eqn:Hv.
  { replace (candidate v) with (@None unicode)
      by (unfold candidate; by rewrite Hv).
    apply IH. }
  cbv zeta. destruct (decide (strip (str v) = [])) as [Hempty|Hempty].
  { replace (candidate v) with (@None unicode)
      by (unfold candidate; by rewrite Hv, bool_decide_eq_true_2).
    rewrite bool_decide_eq_false_2 by (intros Hne; by apply Hne). apply IH. }
  replace (candidate v) with (Some (strip (str v)))
    by (unfold candidate; by rewrite Hv, bool_decide_eq_false_2).
  rewrite bool_decide_eq_true_2 by done.
  rewrite (cons_middle _ seen), app_assoc, <- IH, first_occurrences_snoc.
  rewrite andb_true_l.
  case_bool_decide as Hin.
  - rewrite bool_decide_eq_false_2; [done|].
    by rewrite <- first_occurrences_elem.
  - rewrite bool_decide_eq_true_2, app_nil_r; [done|].
    rewrite <- first_occurrences_elem. by destruct (decide (strip (str v) ∈ first_occurrences seen)).
Qed.

Lemma _normalise_spec values : _normalise values = normalise_spec values.
Proof. apply (_normalise_loop_spec values []). Qed.

Lemma candidate_Some v text :
  candidate v = Some text ↔ v ≠ VNone ∧ text = strip (str v) ∧ text ≠ [].
Proof.
  unfold candidate. destruct (is_None v) eqn:Hv.
  { destruct v; try discriminate. split; [done|]. by intros [[] _]. }
  assert (v ≠ VNone) as Hne by (by intros ->).
  cbv zeta. case_bool_decide as He.
  - split; [done|]. intros (_ & -> & []). done.
  - split; [intros [= <-]; by split_and!|]. by intros (_ & -> & _).
Qed.

(** ** Durations of whole seconds *)

Lemma timedelta_of_seconds_int (n : Z) :
  timedelta_of_seconds n
  = let d := n / 86400 in
    if 999999999 <? Z.abs d then inl OverflowError
    else inr {| days := d; seconds := n mod 86400; microseconds := 0 |}.
Proof.
  unfold timedelta_of_seconds, microseconds_to_delta.
  by rewrite Z.div_mul, Z.mod_mul by lia.
Qed.

(** ** Running the monad *)

Lemma bind_run {S A B} (m : M S A) (k : A → M S B) s :
  (m ≫= k) s = match m s with
               | (inl e, s') => (inl e, s')
               | (inr a, s') => k a s'
               end.
Proof. reflexivity. Qed.

Lemma find_seq_Some (P : nat → bool) a n r :
  List.find P (seq a n) = Some r →
  (a ≤ r < a + n)%nat ∧ P r = true ∧ ∀ r', (a ≤ r' < r)%nat → P r' = false.
Proof.
  revert a. induction n as [|n IH]; intros a; simpl; [done|].
  destruct (P a) eqn:Pa.
  - intros [= <-]. split; [lia|]. split; [done|]. intros; lia.
  - intros (? & ? & Hlt)%IH. split; [lia|]. split; [done|].
    intros r' ?. destruct (decide (r' = a)) as [->|]; [done|]. apply Hlt. lia.
Qed.

Lemma find_seq_None (P : nat → bool) a n :
  List.find P (seq a n) = None → ∀ r, (a ≤ r < a + n)%nat → P r = false.
Proof.
  revert a. induction n as [|n IH]; intros a; simpl; [lia|].
  destruct (P a) eqn:Pa; [done|].
  intros Hn r ?. destruct (decide (r = a)) as [->|]; [done|]. apply (IH _ Hn). lia.
Qed.

Lemma find_ext {A} (P Q : A → bool) l :
  (∀ x, P x = Q x) → List.find P l = List.find Q l.
Proof.
  intros HPQ. induction l as [|x l IH]; simpl; [done|].
  by rewrite HPQ, IH.
Qed.

Section Sheets.
Context `{StyleLayer}.

(** ** Cells created on demand *)

(** The sheet after [ws.cell] looked at position [k]. *)
Definition ensure (k : nat * nat) (ws : Worksheet) : Worksheet :=
  match _cells ws !! k with
  | Some _ => ws
  | None => {| title := title ws;
               _cells := <[k := new_cell]> (_cells ws);
               _current_row := _current_row ws `max` k.1 |}
  end.

(** [ws'] is [ws] with empty cells added at positions that had none. *)
Definition grows (ws ws' : Worksheet) : Prop :=
  title ws' = title ws ∧
  ∀ k, _cells ws' !! k = _cells ws !! k
       ∨ (_cells ws !! k = None ∧ _cells ws' !! k = Some new_cell).

Lemma grows_refl ws : grows ws ws.
Proof. split; [done|]. by left. Qed.

Lemma grows_trans ws1 ws2 ws3 : grows ws1 ws2 → grows ws2 ws3 → grows ws1 ws3.
Proof.
  intros [Ht1 H1] [Ht2 H2]. split; [congruence|].
  intros k. destruct (H1 k) as [E1|[E1 E1']], (H2 k) as [E2|[E2 E2']].
  - left. congruence.
  - right. split; congruence.
  - right. split; congruence.
  - congruence.
Qed.

Lemma grows_view ws ws' k : grows ws ws' → view ws' k = view ws k.
Proof.
  intros [_ Hk]. unfold view.
  destruct (Hk k) as [->|[-> ->]]; done.
Qed.

Lemma grows_lookup ws ws' k c :
  grows ws ws' → _cells ws !! k = Some c → _cells ws' !! k = Some c.
Proof. intros [_ Hk] Hc. destruct (Hk k) as [->|[? _]]; congruence. Qed.

Lemma ensure_grows k ws : grows ws (ensure k ws).
Proof.
  unfold ensure. destruct (_cells ws !! k) eqn:Hk; [apply grows_refl|].
  split; [done|]. intros k'. simpl.
  destruct (decide (k = k')) as [<-|Hne].
  - right. by rewrite lookup_insert_eq.
  - left. by rewrite lookup_insert_ne.
Qed.

Lemma cell_run row column ws :
  (1 ≤ row)%nat → (1 ≤ column)%nat →
  cell row column ws = (inr (row, column), ensure (row, column) ws).
Proof.
  intros Hr Hc. unfold cell, ensure.
  destruct (Nat.ltb_spec row 1); [lia|].
  destruct (Nat.ltb_spec column 1); [lia|].
  simpl. by destruct (_cells ws !! (row, column)).
Qed.

(** ** The free rows and the search *)

(** A row is free when its first four cells show no value. *)
Definition free (ws : Worksheet) (r : nat) : bool :=
  is_None (value (view ws (r, 1%nat))) && is_None (value (view ws (r, 2%nat)))
  && is_None (value (view ws (r, 3%nat))) && is_None (value (view ws (r, 4%nat))).

(** The row the search selects. *)
Definition target (ws : Worksheet) : nat :=
  match List.find (free ws) (range 2 (max_row ws + 1)) with
  | Some r => r
  | None => (max_row ws + 1)%nat
  end.

Lemma free_grows ws ws' r : grows ws ws' → free ws' r = free ws r.
Proof. intros Hg. unfold free. by rewrite !(grows_view _ _ _ Hg). Qed.

Lemma is_empty_row_run r ws :
  (1 ≤ r)%nat →
  ∃ ws', is_empty_row r ws = (inr (free ws r), ws') ∧ grows ws ws'.
Proof.
  intros Hr. unfold is_empty_row, free.
  rewrite bind_run, cell_run by lia.
  pose proof (ensure_grows (r, 1%nat) ws) as G1.
  set (ws1 := ensure (r, 1%nat) ws) in *.
  rewrite bind_run. unfold get_value at 1. rewrite (grows_view _ _ _ G1).
  destruct (is_None (value (view ws (r, 1%nat)))); simpl; [|by exists ws1].
  rewrite bind_run, cell_run by lia.
  pose proof (grows_trans _ _ _ G1 (ensure_grows (r, 2%nat) ws1)) as G2.
  set (ws2 := ensure (r, 2%nat) ws1) in *.
  rewrite bind_run. unfold get_value at 1. rewrite (grows_view _ _ _ G2).
  destruct (is_None (value (view ws (r, 2%nat)))); simpl; [|by exists ws2].
  rewrite bind_run, cell_run by lia.
  pose proof (grows_trans _ _ _ G2 (ensure_grows (r, 3%nat) ws2)) as G3.
  set (ws3 := ensure (r, 3%nat) ws2) in *.
  rewrite bind_run. unfold get_value at 1. rewrite (grows_view _ _ _ G3).
  destruct (is_None (value (view ws (r, 3%nat)))); simpl; [|by exists ws3].
  rewrite bind_run, cell_run by lia.
  pose proof (grows_trans _ _ _ G3 (ensure_grows (r, 4%nat) ws3)) as G4.
  set (ws4 := ensure (r, 4%nat) ws3) in *.
  rewrite bind_run. unfold get_value at 1. rewrite (grows_view _ _ _ G4).
  by exists ws4.
Qed.

Lemma find_row_run rows ws :
  Forall (λ r, 1 ≤ r)%nat rows →
  ∃ ws', find_row rows ws = (inr (List.find (free ws) rows), ws') ∧ grows ws ws'.
Proof.
  intros Hrows. revert ws. induction Hrows as [|r rows Hr _ IH]; intros ws.
  { exists ws. split; [done|apply grows_refl]. }
  cbn [find_row List.find]. rewrite bind_run.
  destruct (is_empty_row_run r ws Hr) as (ws1 & -> & G1).
  destruct (free ws r) eqn:Hfree; [by exists ws1|].
  destruct (IH ws1) as (ws2 & -> & G2).
  exists ws2. split; [|by eapply grows_trans].
  f_equal. f_equal. apply find_ext. intros r'. by apply free_grows.
Qed.

Lemma search_target_row_run ws :
  ∃ ws', search_target_row ws = (inr (target ws), ws') ∧ grows ws ws'.
Proof.
  unfold search_target_row, target. rewrite bind_run. cbn [get].
  rewrite bind_run.
  destruct (find_row_run (range 2 (max_row ws + 1)) ws) as (ws' & -> & G).
  { apply Forall_forall. intros r Hr%list_elem_of_In%in_seq. lia. }
  by exists ws'.
Qed.

(** The selected row is the first free row of [2, max_row], and the row after
    [max_row] when none of them is free. *)
Lemma target_spec ws :
  (1 ≤ max_row ws)%nat →
  (2 ≤ target ws)%nat ∧
  ((target ws ≤ max_row ws)%nat ∧ free ws (target ws) = true
     ∧ (∀ r, (2 ≤ r < target ws)%nat → free ws r = false)
   ∨ target ws = (max_row ws + 1)%nat
     ∧ (∀ r, (2 ≤ r ≤ max_row ws)%nat → free ws r = false)).
Proof.
  intros Hmax. unfold target, range.
  destruct (List.find _ _) as [r|] eqn:Hfind.
  - apply find_seq_Some in Hfind as (? & ? & ?).
    split; [lia|]. left. split; [lia|]. by split.
  - pose proof (find_seq_None _ _ _ Hfind) as Hnone.
    split; [lia|]. right. split; [done|]. intros r ?. apply Hnone. lia.
Qed.

(** ** Sheets whose cells all lie at rows and columns from 1 on *)

Definition well_formed (cells : gmap (nat * nat) Cell) : Prop :=
  map_Forall (λ k _, (1 ≤ k.1)%nat ∧ (1 ≤ k.2)%nat) cells.

Lemma max_row_bound ws k c :
  _cells ws !! k = Some c → (k.1 ≤ max_row ws)%nat.
Proof.
  intros Hk%elem_of_map_to_list. unfold max_row.
  destruct (map_to_list (_cells ws)) as [|kc l] eqn:E; [by apply elem_of_nil in Hk|].
  apply max_list_elem_of_le.
  apply (list_elem_of_fmap_2 (λ kc : nat * nat * Cell, kc.1.1) _ (k, c)), Hk.
Qed.

Lemma max_row_ge ws : well_formed (_cells ws) → (1 ≤ max_row ws)%nat.
Proof.
  intros Hwf. unfold max_row.
  destruct (map_to_list (_cells ws)) as [|[k c] l] eqn:E; [lia|].
  assert (_cells ws !! k = Some c) as Hk.
  { apply elem_of_map_to_list. rewrite E. left. }
  destruct (Hwf k c Hk) as [Hr _].
  pose proof (max_row_bound ws k c Hk) as Hb. unfold max_row in Hb.
  rewrite E in Hb. lia.
Qed.

(** Rows after [max_row] have no cells, so they are free. *)
Lemma free_after_max_row ws r : (max_row ws < r)%nat → free ws r = true.
Proof.
  intros Hr.
  assert (∀ c, view ws (r, c) = new_cell) as Hv.
  { intros c. unfold view. destruct (_cells ws !! (r, c)) as [cl|] eqn:E; [|done].
    apply max_row_bound in E. simpl in E. lia. }
  unfold free. by rewrite !Hv.
Qed.

Lemma target_free ws : free ws (target ws) = true.
Proof.
  unfold target, range.
  destruct (List.find _ _) as [r|] eqn:Hfind.
  - by apply find_seq_Some in Hfind as (_ & ? & _).
  - apply free_after_max_row. lia.
Qed.

(** ** Writing a cell *)

(** The sheet after a cell was stored at [k]. *)
Definition store (k : nat * nat) (c : Cell) (ws : Worksheet) : Worksheet :=
  put_cell k c (ensure k ws).

Lemma store_title k c ws : title (store k c ws) = title ws.
Proof. unfold store, put_cell, ensure. simpl. by destruct (_cells ws !! k). Qed.

Lemma store_lookup k c ws : _cells (store k c ws) !! k = Some c.
Proof. unfold store, put_cell. simpl. apply lookup_insert_eq. Qed.

Lemma store_lookup_ne k k' c ws :
  k ≠ k' → _cells (store k c ws) !! k' = _cells ws !! k'.
Proof.
  intros Hne. unfold store, put_cell. simpl. rewrite lookup_insert_ne by done.
  unfold ensure. destruct (_cells ws !! k); [done|]. simpl.
  by rewrite lookup_insert_ne.
Qed.

Lemma put_cell_store k c ws :
  is_Some (_cells ws !! k) → put_cell k c ws = store k c ws.
Proof. intros [c' Hc]. unfold store, ensure. by rewrite Hc. Qed.

Lemma view_store k c ws : view (store k c ws) k = c.
Proof. unfold view. by rewrite store_lookup. Qed.

Lemma view_store_ne k k' c ws : k ≠ k' → view (store k c ws) k' = view ws k'.
Proof. intros Hne. unfold view. by rewrite store_lookup_ne. Qed.

Lemma set_value_run {A} row column v (k : nat * nat → M Worksheet A) ws :
  (1 ≤ row)%nat → (1 ≤ column)%nat →
  (cell row column ≫= λ c, set_value c v ≫= λ _, k c) ws
  = match bind_value v (view ws (row, column)) with
    | inl e => (inl e, ensure (row, column) ws)
    | inr c => k (row, column) (store (row, column) c ws)
    end.
Proof.
  intros Hr Hc. rewrite bind_run, cell_run by done.
  rewrite bind_run. unfold set_value.
  rewrite (grows_view _ _ _ (ensure_grows _ ws)).
  by destruct (bind_value v (view ws (row, column))).
Qed.

(** The cell a value is bound to. *)
Definition bound (v : Value) (c : Cell) : Cell :=
  {| value := v; style := bind_style v (style c) |}.

Lemma bind_value_other v c :
  (∀ s, v ≠ VStr s) → bind_value v c = inr (bound v c).
Proof. intros Hv. destruct v; try done. by destruct (Hv s). Qed.

Lemma bind_value_str s s' c :
  check_string s = inr s' → bind_value (VStr s) c = inr (bound (VStr s') c).
Proof. intros Hs. unfold bind_value. by rewrite Hs. Qed.

Lemma bind_value_str_fail s e c :
  check_string s = inl e → bind_value (VStr s) c = inl e.
Proof. intros Hs. unfold bind_value. by rewrite Hs. Qed.

(** ** The four writes of [append_time_entry] *)

(** The sheet after the entry was written to row [t]. *)
Definition entry_written (t : nat) (timestamp : datetime) (project work_type : unicode)
    (duration : timedelta) (ws : Worksheet) : Worksheet :=
  let ws1 := store (t, 1%nat) (bound (VDate (dt_date timestamp)) (view ws (t, 1%nat))) ws in
  let ws2 := store (t, 2%nat) (bound (VStr project) (view ws (t, 2%nat))) ws1 in
  let ws3 := store (t, 3%nat) (bound (VStr work_type) (view ws (t, 3%nat))) ws2 in
  let c4 := bound (VTimedelta duration) (view ws (t, 4%nat)) in
  let ws4 := store (t, 4%nat) c4 ws3 in
  store (t, 4%nat)
        {| value := VTimedelta duration;
           style := (set_number_format (u "[h]:mm:ss") (style c4)).2 |} ws4.

Lemma try_pass_format_run k fmt ws :
  is_Some (_cells ws !! k) →
  try_pass (assign_number_format k fmt) ws
  = (inr tt, store k {| value := value (view ws k);
                        style := (set_number_format fmt (style (view ws k))).2 |} ws).
Proof.
  intros Hk. unfold try_pass, assign_number_format.
  destruct (set_number_format fmt (style (view ws k))) as [[e|[]] st]; simpl;
    by rewrite put_cell_store.
Qed.

Lemma write_row_run t timestamp project work_type duration ws p' w' :
  (1 ≤ t)%nat →
  check_string project = inr p' →
  check_string work_type = inr w' →
  write_row t timestamp project work_type duration ws
  = (inr tt, entry_written t timestamp p' w' duration ws).
Proof.
  intros Ht Hp Hw. unfold write_row, entry_written.
  rewrite set_value_run, bind_value_other by (done || lia).
  rewrite set_value_run by (done || lia).
  rewrite view_store_ne by (intros [=]).
  rewrite (bind_value_str _ _ _ Hp).
  rewrite set_value_run by (done || lia).
  rewrite !view_store_ne by (intros [=]).
  rewrite (bind_value_str _ _ _ Hw).
  rewrite set_value_run by (done || lia).
  rewrite !view_store_ne by (intros [=]).
  rewrite bind_value_other by done.
  rewrite try_pass_format_run by (rewrite store_lookup; eauto).
  by rewrite view_store.
Qed.

Lemma write_row_raises t timestamp project work_type duration ws :
  (1 ≤ t)%nat →
  (∃ e, check_string project = inl e) ∨ (∃ e, check_string work_type = inl e) →
  ∃ e ws', write_row t timestamp project work_type duration ws = (inl e, ws').
Proof.
  intros Ht Hfail. unfold write_row.
  rewrite set_value_run, bind_value_other by (done || lia).
  rewrite set_value_run by (done || lia).
  destruct (check_string project) as [e|p'] eqn:Hp.
  { rewrite (bind_value_str_fail _ _ _ Hp). eauto. }
  rewrite (bind_value_str _ _ _ Hp).
  rewrite set_value_run by (done || lia).
  destruct Hfail as [[e [=]]|[e Hw]].
  rewrite (bind_value_str_fail _ _ _ Hw). eauto.
Qed.

(** The cells of the written row, and the frame of the write. *)
Lemma entry_written_title t ts p w d ws :
  title (entry_written t ts p w d ws) = title ws.
Proof. unfold entry_written. by rewrite !store_title. Qed.

Lemma entry_written_values t ts p w d ws :
  let ws' := entry_written t ts p w d ws in
  value (view ws' (t, 1%nat)) = VDate (dt_date ts)
  ∧ value (view ws' (t, 2%nat)) = VStr p
  ∧ value (view ws' (t, 3%nat)) = VStr w
  ∧ value (view ws' (t, 4%nat)) = VTimedelta d.
Proof.
  unfold entry_written. cbv zeta.
  rewrite !(view_store_ne (t, 4%nat) (t, 1%nat)), !(view_store_ne (t, 4%nat) (t, 2%nat)),
    !(view_store_ne (t, 4%nat) (t, 3%nat)) by (intros [=]).
  rewrite !(view_store_ne (t, 3%nat) (t, 1%nat)), !(view_store_ne (t, 3%nat) (t, 2%nat))
    by (intros [=]).
  rewrite !(view_store_ne (t, 2%nat) (t, 1%nat)) by (intros [=]).
  by rewrite !view_store.
Qed.


Lemma entry_written_frame t ts p w d ws k :
  k ∉ [(t, 1%nat); (t, 2%nat); (t, 3%nat); (t, 4%nat)] →
  _cells (entry_written t ts p w d ws) !! k = _cells ws !! k.
Proof.
  intros Hk. unfold entry_written. cbv zeta.
  rewrite !store_lookup_ne; [done|..]; intros <-; apply Hk; set_solver.
Qed.

Lemma free_iff ws r :
  free ws r = true
  ↔ ∀ c, c ∈ [1; 2; 3; 4]%nat → value (view ws (r, c)) = VNone.
Proof.
  assert (∀ v, is_None v = true ↔ v = VNone) as Hnone.
  { intros v. destruct v; simpl; split; congruence. }
  unfold free. rewrite !andb_true_iff, !Hnone. split.
  - intros [[[H1 H2] H3] H4] c Hc.
    repeat (apply elem_of_cons in Hc as [->|Hc]; [done|]). by apply elem_of_nil in Hc.
  - intros Hall. split_and!; apply Hall; repeat constructor.
Qed.

Lemma free_false ws r c :
  c ∈ [1; 2; 3; 4]%nat → value (view ws (r, c)) ≠ VNone → free ws r = false.
Proof.
  intros Hc Hv. destruct (free ws r) eqn:Hfree; [|done].
  destruct Hv. by apply (proj1 (free_iff ws r) Hfree).
Qed.

End Sheets.

(** ** Texts that occur in a message *)

Lemma occurs_in_refl x : occurs_in x x.
Proof. exists [], []. by rewrite app_nil_r. Qed.

Lemma occurs_in_app_l x s t : occurs_in x s → occurs_in x (s ++ t).
Proof. intros (b & a & ->). exists b, (a ++ t). by rewrite <- !app_assoc. Qed.

Lemma occurs_in_app_r x s t : occurs_in x t → occurs_in x (s ++ t).
Proof. intros (b & a & ->). exists (s ++ b), a. by rewrite <- !app_assoc. Qed.

Lemma occurs_in_trans x y s : occurs_in x y → occurs_in y s → occurs_in x s.
Proof.
  intros (b & a & ->) (b' & a' & ->). exists (b' ++ b), (a ++ a').
  by rewrite <- !app_assoc.
Qed.

Lemma occurs_in_join sep names name :
  name ∈ names → occurs_in name (join sep names).
Proof.
  induction names as [|n names IH]; [by intros ?%elem_of_nil|].
  intros [->|Hin]%elem_of_cons.
  - destruct names; [apply occurs_in_refl|]. apply occurs_in_app_l, occurs_in_refl.
  - destruct names as [|n' names]; [by apply elem_of_nil in Hin|].
    change (join sep (n :: n' :: names)) with (n ++ sep ++ join sep (n' :: names)).
    by apply occurs_in_app_r, occurs_in_app_r, IH.
Qed.

Lemma bool_decide_is_Some_Some {A} (x : A) : bool_decide (is_Some (Some x)) = true.
Proof. reflexivity. Qed.

Lemma bool_decide_is_Some_None {A} : bool_decide (is_Some (@None A)) = false.
Proof. reflexivity. Qed.

Section Operations.
Context `{StyleLayer}.

(** ** File operations *)

(** The world after the file operations [es] were attempted. *)
Definition logged (es : list Event) (w : World) : World :=
  {| files := files w; unwritable := unwritable w; save_error := save_error w; clock := clock w;
     trace := trace w ++ es |}.

Lemma logged_logged es es' w : logged es' (logged es w) = logged (es ++ es') w.
Proof. unfold logged. simpl. by rewrite app_assoc. Qed.

Lemma path_exists_run path w :
  path_exists path w
  = (inr (bool_decide (is_Some (files w !! path))), logged [EvExists path] w).
Proof. reflexivity. Qed.

Lemma load_workbook_run path w :
  load_workbook path w
  = (match files w !! path with
     | Some (Xlsx doc) => inr (read_document doc)
     | Some (NotXlsx e) => inl e
     | None => inl (FileNotFoundError path)
     end, logged [EvLoad path] w).
Proof.
  unfold load_workbook, mbind, M_bind, bind, log, modify, get. simpl.
  by destruct (files w !! path) as [[doc|]|].
Qed.

Lemma save_run wb path w :
  save wb path w
  = if bool_decide (path ∈ unwritable w)
    then (inl (save_error w path), logged [EvSave path] w)
    else (inr tt, {| files := <[path := Xlsx (write_document wb)]> (files w);
                     unwritable := unwritable w; save_error := save_error w;
                     clock := clock w; trace := trace w ++ [EvSave path] |}).
Proof.
  unfold save, mbind, M_bind, bind, log, modify, get. simpl.
  by destruct (bool_decide (path ∈ unwritable w)).
Qed.

Lemma title_read_sheet s : title (read_sheet s) = s.1.
Proof. unfold read_sheet. by case_bool_decide. Qed.

Lemma cells_read_sheet s : _cells (read_sheet s) = s.2.
Proof. unfold read_sheet. by case_bool_decide. Qed.

Lemma sheetnames_read doc : sheetnames (read_document doc) = doc.*1.
Proof.
  unfold sheetnames, read_document. simpl. rewrite <- list_fmap_compose.
  apply list_fmap_ext. intros i s _. apply title_read_sheet.
Qed.

Lemma write_read doc : write_document (read_document doc) = doc.
Proof.
  unfold write_document, read_document. simpl. rewrite <- list_fmap_compose.
  rewrite <- (list_fmap_id doc) at 2. apply list_fmap_ext. intros i [t c] _. simpl.
  by rewrite title_read_sheet, cells_read_sheet.
Qed.

(** ** Looking a sheet up by its title *)

Lemma index_of_Some name sheets :
  name ∈ title <$> sheets →
  ∃ i ws, index_of name sheets = Some i ∧ sheets !! i = Some ws ∧ title ws = name.
Proof.
  induction sheets as [|ws sheets IH]; [by intros ?%elem_of_nil|].
  cbn [index_of fmap list_fmap]. intros Hin.
  case_bool_decide as Ht; [by exists 0%nat, ws|].
  apply elem_of_cons in Hin as [->|Hin]; [done|].
  destruct (IH Hin) as (i & ws' & -> & ? & ?). by exists (S i), ws'.
Qed.

Lemma index_of_lookup name sheets i :
  index_of name sheets = Some i →
  ∃ ws, sheets !! i = Some ws ∧ title ws = name.
Proof.
  revert i. induction sheets as [|ws sheets IH]; intros i; [done|].
  cbn [index_of]. case_bool_decide as Ht.
  - intros [= <-]. by exists ws.
  - destruct (index_of name sheets) as [j|]; [|done].
    intros [= <-]. by apply IH.
Qed.

Lemma index_of_None name sheets :
  name ∉ title <$> sheets → index_of name sheets = None.
Proof.
  induction sheets as [|ws sheets IH]; [done|].
  cbn [index_of fmap list_fmap]. intros Hin.
  rewrite bool_decide_eq_false_2 by (intros <-; apply Hin; left).
  rewrite IH; [done|]. intros ?. apply Hin. by right.
Qed.

Lemma contains_index_of wb name :
  contains wb name = bool_decide (is_Some (index_of name (_sheets wb))).
Proof.
  unfold contains, sheetnames.
  destruct (decide (name ∈ title <$> _sheets wb)) as [Hin|Hin].
  - destruct (index_of_Some _ _ Hin) as (i & ws & -> & _).
    rewrite !bool_decide_eq_true_2; eauto.
  - rewrite (index_of_None _ _ Hin).
    rewrite !bool_decide_eq_false_2; [done|by intros [? [=]]|done].
Qed.

(** The sheet of that title the reader hands out, if any. *)
Definition find_sheet (name : unicode) (doc : Document) : option (nat * Worksheet) :=
  i ← index_of name (read_sheet <$> doc);
  ws ← (read_sheet <$> doc) !! i;
  Some (i, ws).

Lemma find_sheet_None name doc :
  find_sheet name doc = None ↔ name ∉ doc.*1.
Proof.
  unfold find_sheet. rewrite <- sheetnames_read. unfold sheetnames, read_document.
  simpl. split.
  - intros Hnone Hin. destruct (index_of_Some _ _ Hin) as (i & ws & Hi & Hws & _).
    rewrite Hi in Hnone. cbn [mbind option_bind] in Hnone. by rewrite Hws in Hnone.
  - intros Hin. by rewrite (index_of_None _ _ Hin).
Qed.

Lemma find_sheet_Some name doc i ws :
  find_sheet name doc = Some (i, ws) →
  index_of name (read_sheet <$> doc) = Some i
  ∧ (read_sheet <$> doc) !! i = Some ws ∧ title ws = name
  ∧ ∃ cells, doc !! i = Some (name, cells) ∧ _cells ws = cells.
Proof.
  unfold find_sheet. destruct (index_of _ _) as [j|] eqn:Hj; [|done]. simpl.
  destruct (_ !! j) as [ws'|] eqn:Hws; [|done]. intros [= <- <-].
  destruct (index_of_lookup _ _ _ Hj) as (ws'' & Hws'' & Ht).
  assert (ws'' = ws') as -> by congruence.
  split_and!; [done..|].
  clear Hws''. apply list_lookup_fmap_Some in Hws as ([t c] & -> & Hd).
  rewrite title_read_sheet in Ht. simpl in Ht. subst t.
  exists c. by rewrite cells_read_sheet.
Qed.

Lemma write_document_insert doc i ws act :
  write_document {| _sheets := <[i := ws]> (read_sheet <$> doc);
                    _active_sheet_index := act |}
  = <[i := (title ws, _cells ws)]> doc.
Proof.
  unfold write_document. simpl. rewrite list_fmap_insert. f_equal.
  apply (write_read doc).
Qed.

Lemma get_sheet_run {S} name wb i ws (s : S) :
  index_of name (_sheets wb) = Some i →
  _sheets wb !! i = Some ws →
  on_local (getitem name ≫= λ i, in_sheet i get) wb s
  = (inr (ws, {| _sheets := <[i := ws]> (_sheets wb);
                 _active_sheet_index := _active_sheet_index wb |}), s).
Proof.
  intros Hi Hws. unfold on_local, getitem, in_sheet, mbind, M_bind, bind, get.
  rewrite Hi. cbv beta iota. by rewrite Hws.
Qed.

Lemma in_sheet_run {S A} i (m : M Worksheet A) wb ws (s : S) :
  _sheets wb !! i = Some ws →
  on_local (in_sheet i m) wb s
  = match m ws with
    | (inl e, _) => (inl e, s)
    | (inr a, ws') =>
      (inr (a, {| _sheets := <[i := ws']> (_sheets wb);
                  _active_sheet_index := _active_sheet_index wb |}), s)
    end.
Proof.
  intros Hws. unfold on_local, in_sheet. rewrite Hws.
  by destruct (m ws) as [[e|a] ws'].
Qed.

(** ** What [load_reference_data] returns *)

Lemma load_reference_data_run path w :
  load_reference_data path w
  = match files w !! path with
    | None =>
      (inl (FileNotFoundError (not_found_message path)), logged [EvExists path] w)
    | Some (NotXlsx e) =>
      (inl e, logged [EvExists path; EvLoad path] w)
    | Some (Xlsx doc) =>
      (match find_sheet REFERENCE_SHEET doc with
       | None => inl (ExcelStructureError
                        (structure_message REFERENCE_SHEET (read_document doc)))
       | Some (_, sheet) => inr (reference_lists (iter_rows sheet))
       end, logged [EvExists path; EvLoad path] w)
    end.
Proof.
  unfold load_reference_data. rewrite bind_run, path_exists_run.
  destruct (files w !! path) as [[doc|]|] eqn:Hf;
    rewrite ?bool_decide_is_Some_Some, ?bool_decide_is_Some_None; cbn [negb].
  - rewrite bind_run, load_workbook_run. simpl files. rewrite Hf, logged_logged.
    rewrite contains_index_of. unfold find_sheet.
    change (_sheets (read_document doc)) with (read_sheet <$> doc).
    destruct (index_of REFERENCE_SHEET (read_sheet <$> doc)) as [i|] eqn:Hi.
    + rewrite bool_decide_is_Some_Some. cbn [negb].
      destruct (index_of_lookup _ _ _ Hi) as (ws & Hws & _).
      rewrite bind_run, (get_sheet_run _ _ i ws) by done.
      cbn [mbind option_bind]. by rewrite Hws.
    + by rewrite bool_decide_is_Some_None.
  - rewrite bind_run, load_workbook_run. simpl files. by rewrite Hf, logged_logged.
  - done.
Qed.

(** ** What [append_time_entry] does *)

(** The timestamp of the entry: [finished_at or datetime.now()]. *)
Definition timestamp_of (finished_at : option datetime) (w : World) : datetime :=
  default (clock w) finished_at.

(** The world after the document [doc'] was saved at [path]. *)
Definition saved (path : unicode) (doc' : Document) (w : World) : World :=
  {| files := <[path := Xlsx doc']> (files w); unwritable := unwritable w; save_error := save_error w;
     clock := clock w;
     trace := trace w ++ [EvExists path; EvLoad path; EvSave path] |}.

Lemma append_missing_file path project work_type secs fin w :
  files w !! path = None →
  append_time_entry path project work_type secs fin w
  = (inl (FileNotFoundError (not_found_message path)), logged [EvExists path] w).
Proof.
  intros Hf. unfold append_time_entry. rewrite bind_run, path_exists_run, Hf.
  by rewrite bool_decide_is_Some_None.
Qed.

Lemma append_not_xlsx path project work_type secs fin w e :
  files w !! path = Some (NotXlsx e) →
  append_time_entry path project work_type secs fin w
  = (inl e, logged [EvExists path; EvLoad path] w).
Proof.
  intros Hf. unfold append_time_entry. rewrite bind_run, path_exists_run, Hf.
  rewrite bool_decide_is_Some_Some. cbn [negb].
  rewrite bind_run, load_workbook_run. simpl files. by rewrite Hf, logged_logged.
Qed.

Lemma append_missing_sheet path project work_type secs fin w doc :
  files w !! path = Some (Xlsx doc) →
  find_sheet TIMESHEET_SHEET doc = None →
  append_time_entry path project work_type secs fin w
  = (inl (ExcelStructureError (structure_message TIMESHEET_SHEET (read_document doc))),
     logged [EvExists path; EvLoad path] w).
Proof.
  intros Hf Hs. unfold append_time_entry. rewrite bind_run, path_exists_run, Hf.
  rewrite bool_decide_is_Some_Some. cbn [negb].
  rewrite bind_run, load_workbook_run. simpl files. rewrite Hf, logged_logged.
  rewrite contains_index_of.
  apply find_sheet_None in Hs. rewrite <- sheetnames_read in Hs.
  rewrite (index_of_None _ _ Hs). by rewrite bool_decide_is_Some_None.
Qed.

Lemma append_found_sheet path project work_type secs fin w doc i sheet :
  files w !! path = Some (Xlsx doc) →
  find_sheet TIMESHEET_SHEET doc = Some (i, sheet) →
  append_time_entry path project work_type secs fin w
  = let w2 := logged [EvExists path; EvLoad path] w in
    match timedelta_of_seconds secs with
    | inl e => (inl e, w2)
    | inr duration =>
      match (search_target_row ≫= λ target_row,
             write_row target_row (timestamp_of fin w) project work_type duration) sheet
      with
      | (inl e, _) => (inl e, w2)
      | (inr _, sheet') =>
        save {| _sheets := <[i := sheet']> (read_sheet <$> doc);
                _active_sheet_index := 0 |} path w2
      end
    end.
Proof.
  intros Hf Hs. apply find_sheet_Some in Hs as (Hi & Hws & _).
  unfold append_time_entry. rewrite bind_run, path_exists_run, Hf.
  rewrite bool_decide_is_Some_Some. cbn [negb].
  rewrite bind_run, load_workbook_run. simpl files. rewrite Hf, logged_logged.
  rewrite contains_index_of.
  change (_sheets (read_document doc)) with (read_sheet <$> doc).
  rewrite Hi, bool_decide_is_Some_Some. cbn [negb].
  rewrite bind_run. unfold on_local at 1, getitem.
  change (_sheets (read_document doc)) with (read_sheet <$> doc). rewrite Hi.
  cbv beta iota zeta. rewrite bind_run.
  replace ((match fin with Some t => mret t | None => now end)
             (logged ([EvExists path] ++ [EvLoad path]) w))
    with (@inr exn _ (timestamp_of fin w), logged ([EvExists path] ++ [EvLoad path]) w)
    by (by destruct fin).
  rewrite bind_run. unfold lift.
  destruct (timedelta_of_seconds secs) as [e|duration]; [done|].
  rewrite bind_run, (in_sheet_run i _ _ sheet) by done.
  by destruct ((search_target_row ≫= _) sheet) as [[e|[]] sheet'].
Qed.

Lemma target_ge_1 (ws : Worksheet) : (1 ≤ target ws)%nat.
Proof.
  unfold target, range. destruct (List.find _ _) as [r|] eqn:Hfind; [|lia].
  apply find_seq_Some in Hfind. lia.
Qed.

(** A successful call: the document saved is the one loaded, with the entry
    written into the target row of the timesheet. *)
Lemma append_ok path project work_type secs fin w doc i sheet duration p' w' :
  files w !! path = Some (Xlsx doc) →
  find_sheet TIMESHEET_SHEET doc = Some (i, sheet) →
  timedelta_of_seconds secs = inr duration →
  check_string project = inr p' →
  check_string work_type = inr w' →
  path ∉ unwritable w →
  ∃ sheet',
    grows sheet sheet'
    ∧ append_time_entry path project work_type secs fin w
      = (inr tt,
         saved path
           (<[i := (TIMESHEET_SHEET,
                    _cells (entry_written (target sheet) (timestamp_of fin w)
                                          p' w' duration sheet'))]> doc) w).
Proof.
  intros Hf Hs Hd Hp Hw Hpath.
  rewrite (append_found_sheet _ _ _ _ _ _ _ _ _ Hf Hs), Hd. cbv zeta.
  apply find_sheet_Some in Hs as (_ & _ & Ht & _).
  rewrite bind_run.
  destruct (search_target_row_run sheet) as (sheet' & -> & G).
  exists sheet'. split; [done|].
  rewrite (write_row_run _ _ _ _ _ _ p' w') by (done || apply target_ge_1).
  rewrite save_run. simpl unwritable. rewrite bool_decide_eq_false_2 by done.
  rewrite write_document_insert, entry_written_title.
  destruct G as [-> _]. rewrite Ht. unfold saved, logged. simpl.
  by rewrite <- app_assoc.
Qed.

Lemma append_raises path project work_type secs fin w doc i sheet :
  files w !! path = Some (Xlsx doc) →
  find_sheet TIMESHEET_SHEET doc = Some (i, sheet) →
  (∃ e, timedelta_of_seconds secs = inl e)
  ∨ (∃ e, check_string project = inl e)
  ∨ (∃ e, check_string work_type = inl e) →
  ∃ e, append_time_entry path project work_type secs fin w
       = (inl e, logged [EvExists path; EvLoad path] w).
Proof.
  intros Hf Hs Hfail.
  rewrite (append_found_sheet _ _ _ _ _ _ _ _ _ Hf Hs). cbv zeta.
  destruct (timedelta_of_seconds secs) as [e|duration]; [by exists e|].
  destruct Hfail as [[e [=]]|Hfail].
  rewrite bind_run. destruct (search_target_row_run sheet) as (sheet' & -> & G).
  destruct (write_row_raises (target sheet) (timestamp_of fin w) project work_type
              duration sheet' (target_ge_1 _) Hfail) as (e & ws' & ->).
  by exists e.
Qed.

Lemma append_unwritable path project work_type secs fin w doc i sheet duration p' w' :
  files w !! path = Some (Xlsx doc) →
  find_sheet TIMESHEET_SHEET doc = Some (i, sheet) →
  timedelta_of_seconds secs = inr duration →
  check_string project = inr p' →
  check_string work_type = inr w' →
  path ∈ unwritable w →
  append_time_entry path project work_type secs fin w
  = (inl (save_error w path), logged [EvExists path; EvLoad path; EvSave path] w).
Proof.
  intros Hf Hs Hd Hp Hw Hpath.
  rewrite (append_found_sheet _ _ _ _ _ _ _ _ _ Hf Hs), Hd. cbv zeta.
  rewrite bind_run.
  destruct (search_target_row_run sheet) as (sheet' & -> & G).
  rewrite (write_row_run _ _ _ _ _ _ p' w') by (done || apply target_ge_1).
  rewrite save_run. simpl unwritable. rewrite bool_decide_eq_true_2 by done.
  by rewrite logged_logged.
Qed.

(** Success is decided by the file, the sheet, the conversions and the
    write: a call that returns has met all of these. *)
Lemma append_returns_inv path project work_type secs fin w w' :
  append_time_entry path project work_type secs fin w = (inr tt, w') →
  ∃ doc i sheet duration p' wt',
    files w !! path = Some (Xlsx doc)
    ∧ find_sheet TIMESHEET_SHEET doc = Some (i, sheet)
    ∧ timedelta_of_seconds secs = inr duration
    ∧ check_string project = inr p'
    ∧ check_string work_type = inr wt'
    ∧ path ∉ unwritable w.
Proof.
  intros Hrun.
  destruct (files w !! path) as [[doc|]|] eqn:Hf.
  2: { by rewrite (append_not_xlsx _ _ _ _ _ _ _ Hf) in Hrun. }
  2: { by rewrite (append_missing_file _ _ _ _ _ _ Hf) in Hrun. }
  destruct (find_sheet TIMESHEET_SHEET doc) as [[i sheet]|] eqn:Hs.
  2: { by rewrite (append_missing_sheet _ _ _ _ _ _ _ Hf Hs) in Hrun. }
  destruct (timedelta_of_seconds secs) as [e|duration] eqn:Hd.
  { destruct (append_raises path project work_type secs fin w doc i sheet Hf Hs)
      as (e' & He); [left; rewrite Hd; eauto|]. by rewrite He in Hrun. }
  destruct (check_string project) as [e|p'] eqn:Hp.
  { destruct (append_raises path project work_type secs fin w doc i sheet Hf Hs)
      as (e' & He); [right; left; eauto|]. by rewrite He in Hrun. }
  destruct (check_string work_type) as [e|wt'] eqn:Hw.
  { destruct (append_raises path project work_type secs fin w doc i sheet Hf Hs)
      as (e' & He); [right; right; eauto|]. by rewrite He in Hrun. }
  destruct (decide (path ∈ unwritable w)) as [Hin|Hin].
  { by rewrite (append_unwritable _ _ _ _ _ _ _ _ _ _ _ _ Hf Hs Hd Hp Hw Hin) in Hrun. }
  by exists doc, i, sheet, duration, p', wt'.
Qed.

End Operations.

(** ** The columns [load_reference_data] collects *)

(** Column [j] (from 0) of the rows; a row too short for it contributes
    no value. *)
Definition column (j : nat) (rows : list (list Value)) : list Value :=
  (λ row, default VNone (row !! j)) <$> rows.

Lemma unpack_columns row :
  unpack row = (default VNone (row !! 0%nat), default VNone (row !! 1%nat)).
Proof. by destruct row as [|? [|? ?]]. Qed.

Lemma collect_from n rows projects work_types :
  (2 ≤ n)%nat →
  collect (zip (seq n (length rows)) rows) projects work_types
  = (projects ++ column 0 rows, work_types ++ column 1 rows).
Proof.
  revert n projects work_types.
  induction rows as [|row rows IH]; intros n projects work_types Hn.
  { simpl. by rewrite !app_nil_r. }
  cbn [length seq zip zip_with collect].
  destruct (Nat.eqb_spec n 1); [lia|].
  rewrite unpack_columns, IH by lia.
  unfold column. cbn [fmap list_fmap]. by rewrite <- !app_assoc.
Qed.

Lemma collect_enumerate rows :
  collect (enumerate 1 rows) [] [] = (column 0 (drop 1 rows), column 1 (drop 1 rows)).
Proof.
  unfold enumerate. destruct rows as [|row rows]; [done|].
  cbn [length seq zip zip_with collect Nat.eqb drop].
  by rewrite collect_from.
Qed.

Lemma reference_lists_spec rows :
  reference_lists rows
  = (normalise_spec (column 0 (drop 1 rows)), normalise_spec (column 1 (drop 1 rows))).
Proof.
  unfold reference_lists. rewrite collect_enumerate. by rewrite !_normalise_spec.
Qed.

(** What a normalised list holds. *)
Lemma normalise_spec_elem values text :
  text ∈ normalise_spec values
  ↔ ∃ v, v ∈ values ∧ v ≠ VNone ∧ text = strip (str v) ∧ text ≠ [].
Proof.
  unfold normalise_spec. rewrite first_occurrences_elem, list_elem_of_omap.
  by setoid_rewrite candidate_Some.
Qed.

Lemma normalise_spec_stripped values text c :
  text ∈ normalise_spec values →
  head text = Some c ∨ last text = Some c → isspace c = false.
Proof.
  intros (v & _ & _ & -> & _)%normalise_spec_elem. apply strip_ends.
Qed.

Section Template.
Context `{StyleLayer}.

(** ** The document [create_template] saves *)

(** A header row: the texts bound to new cells of row 1, from column 1 on. *)
Definition header_row (texts : list unicode) : gmap (nat * nat) Cell :=
  list_to_map (imap (λ j t, ((1%nat, S j), bound (VStr t) new_cell)) texts).

Definition template_document : Document :=
  [ (REFERENCE_SHEET, header_row [u "Проект"; u "Вид работ"]);
    (TIMESHEET_SHEET,
     header_row [u "Дата"; u "Проект"; u "Вид работ"; u "Длительность"]) ].

Lemma create_template_run path w :
  create_template path w
  = if bool_decide (path ∈ unwritable w)
    then (inl (save_error w path), logged [EvSave path] w)
    else (inr tt, {| files := <[path := Xlsx template_document]> (files w);
                     unwritable := unwritable w; save_error := save_error w;
                     clock := clock w; trace := trace w ++ [EvSave path] |}).
Proof.
  unfold create_template. rewrite bind_run.
  replace (on_local _ new_workbook w) with
    (@inr exn _ (tt, read_document template_document), w).
  - rewrite save_run. by rewrite (write_read template_document).
  - by vm_compute.
Qed.

End Template.

(** ** A call of [append_time_entry] that returns *)

Section Returns.
Context `{StyleLayer}.

(** The positions of the entry written to row [t]. *)
Definition entry_cells (t : nat) : list (nat * nat) :=
  [(t, 1%nat); (t, 2%nat); (t, 3%nat); (t, 4%nat)].

(** [sheet'] is [sheet] with the entry in row [t] and nothing else changed:
    the four cells hold the values, every other position shows what it
    showed, and every other cell is the cell it was, or an empty cell where
    [ws.cell] found none. *)
Definition entry_in (sheet sheet' : Worksheet) (t : nat)
    (timestamp : datetime) (project work_type : unicode) (duration : timedelta) : Prop :=
  value (view sheet' (t, 1%nat)) = VDate (dt_date timestamp)
  ∧ value (view sheet' (t, 2%nat)) = VStr project
  ∧ value (view sheet' (t, 3%nat)) = VStr work_type
  ∧ value (view sheet' (t, 4%nat)) = VTimedelta duration
  ∧ (∀ k, k ∉ entry_cells t → view sheet' k = view sheet k)
  ∧ (∀ k, k ∉ entry_cells t →
        _cells sheet' !! k = _cells sheet !! k
        ∨ (_cells sheet !! k = None ∧ _cells sheet' !! k = Some new_cell)).

Lemma entry_written_entry_in sheet sheet0 t ts p wt d :
  grows sheet sheet0 →
  entry_in sheet (entry_written t ts p wt d sheet0) t ts p wt d.
Proof.
  intros G. destruct (entry_written_values t ts p wt d sheet0) as (? & ? & ? & ?).
  unfold entry_in. split_and!; try done.
  - intros k Hk. unfold view at 1. rewrite entry_written_frame by done.
    apply (grows_view _ _ _ G).
  - intros k Hk. rewrite entry_written_frame by done. apply G.
Qed.

Lemma entry_cells_row t r c : (r, c) ∈ entry_cells t → r = t.
Proof.
  unfold entry_cells. intros Hin.
  repeat (apply elem_of_cons in Hin as [[= ?]|Hin]; [done|]). by apply elem_of_nil in Hin.
Qed.

Lemma entry_in_other_rows sheet sheet' t ts p wt d r c :
  entry_in sheet sheet' t ts p wt d → r ≠ t → view sheet' (r, c) = view sheet (r, c).
Proof.
  intros (_ & _ & _ & _ & Hframe & _) Hr. apply Hframe.
  by intros ?%entry_cells_row.
Qed.

(** The outcome of a call that meets all conditions. *)
Lemma append_succeeds path project work_type secs fin w doc i sheet duration p' wt' :
  files w !! path = Some (Xlsx doc) →
  find_sheet TIMESHEET_SHEET doc = Some (i, sheet) →
  timedelta_of_seconds secs = inr duration →
  check_string project = inr p' →
  check_string work_type = inr wt' →
  path ∉ unwritable w →
  ∃ w' sheet',
    append_time_entry path project work_type secs fin w = (inr tt, w')
    ∧ files w' = <[path := Xlsx (<[i := (TIMESHEET_SHEET, _cells sheet')]> doc)]> (files w)
    ∧ trace w' = trace w ++ [EvExists path; EvLoad path; EvSave path]
    ∧ entry_in sheet sheet' (target sheet) (timestamp_of fin w) p' wt' duration.
Proof.
  intros Hf Hs Hd Hp Hw Hpath.
  destruct (append_ok path project work_type secs fin w doc i sheet duration p' wt'
              Hf Hs Hd Hp Hw Hpath) as (sheet0 & G & ->).
  eexists _, (entry_written _ _ _ _ _ sheet0). split_and!; [done..|].
  by apply entry_written_entry_in.
Qed.


End Returns.

(** * What is read back from a saved file *)

(** [save] hands the workbook to the writer of openpyxl, and what a later
    [load_workbook] yields for a cell is what the reader makes of what the
    writer stored for it.  That pair is kept abstract, as the style layer
    is, with the four facts about it that are used: a cell holding the
    empty text is stored as a cell without a value ([write_cell] writes an
    empty element for it); in a cell that was new, a text of ASCII letters
    and digits is read back as it is; a date from 1900 on, which is stored
    as a day number under a date format, is read back as the [datetime] at
    midnight of that day; and a duration of less than a day in whole
    seconds, stored as a fraction of a day under [[h]:mm:ss], is read back
    as it is. *)

Definition midnight (d : date) : datetime :=
  {| dt_date := d; hour := 0; minute := 0; second := 0; microsecond := 0 |}.

(** An ASCII letter or digit. *)
Definition alnum (c : N) : bool :=
  ((48 <=? c) && (c <=? 57) || (65 <=? c) && (c <=? 90) || (97 <=? c) && (c <=? 122))%N.

Class FileFormat `{StyleLayer} := Build_FileFormat {
  reread : Cell → Value;
  reread_empty_text c : value c = VStr [] → reread c = VNone;
  reread_text s :
    s ≠ [] → (length s ≤ N.to_nat 32767)%nat → forallb alnum s = true →
    reread (bound (VStr s) new_cell) = VStr s;
  reread_date d :
    (1900 ≤ year d)%N → reread (bound (VDate d) new_cell) = VDatetime (midnight d);
  reread_duration secs :
    0 ≤ secs < 86400 →
    reread {| value := VTimedelta {| days := 0; seconds := secs; microseconds := 0 |};
              style := (set_number_format (u "[h]:mm:ss")
                          (bind_style
                             (VTimedelta {| days := 0; seconds := secs;
                                            microseconds := 0 |})
                             default_style)).2 |}
    = VTimedelta {| days := 0; seconds := secs; microseconds := 0 |};
}.

(** * Example workbooks *)

(** A style layer that keeps the number format of a cell as its style. *)
Definition stored_formats : StyleLayer :=
  {| Style := unicode;
     default_style := u "General";
     bind_style := λ v s,
       match v with
       | VDate _ => u "yyyy-mm-dd"
       | VDatetime _ => u "yyyy-mm-dd h:mm:ss"
       | VTimedelta _ => u "[h]:mm:ss"
       | _ => s
       end;
     set_number_format := λ fmt _, (inr tt, fmt) |}.

(** A style layer that refuses every number format. *)
Definition refused_formats : StyleLayer :=
  {| Style := unit;
     default_style := tt;
     bind_style := λ _ s, s;
     set_number_format := λ _ s, (inl StyleError, s) |}.

(** What is read back where the number format is the style: the empty text
    as no value, a date as the [datetime] at midnight, and the texts and
    durations of the examples as they are. *)
Definition reread_stored (c : Cell (H := stored_formats)) : Value :=
  match value c with
  | VStr [] => VNone
  | VDate d => VDatetime (midnight d)
  | v => v
  end.

Lemma reread_stored_empty_text c : value c = VStr [] → reread_stored c = VNone.
Proof. unfold reread_stored. by intros ->. Qed.

Lemma reread_stored_text s :
  s ≠ [] → (length s ≤ N.to_nat 32767)%nat → forallb alnum s = true →
  reread_stored (bound (H := stored_formats) (VStr s) new_cell) = VStr s.
Proof. by destruct s. Qed.

Lemma reread_stored_date d :
  (1900 ≤ year d)%N →
  reread_stored (bound (H := stored_formats) (VDate d) new_cell) = VDatetime (midnight d).
Proof. done. Qed.

Lemma reread_stored_duration secs :
  0 ≤ secs < 86400 →
  reread_stored
    {| value := VTimedelta {| days := 0; seconds := secs; microseconds := 0 |};
       style := (set_number_format (StyleLayer := stored_formats) (u "[h]:mm:ss")
                   (bind_style
                      (VTimedelta {| days := 0; seconds := secs; microseconds := 0 |})
                      default_style)).2 |}
  = VTimedelta {| days := 0; seconds := secs; microseconds := 0 |}.
Proof. done. Qed.

Definition stored_values : FileFormat (H := stored_formats) :=
  Build_FileFormat stored_formats reread_stored reread_stored_empty_text
    reread_stored_text reread_stored_date reread_stored_duration.

Section Examples.
Context `{StyleLayer}.

(** A cell that was given the value [v] when new. *)
Definition holding (v : Value) : Cell := bound v new_cell.

Definition example_path : unicode := u "timesheet.xlsx".

Definition example_clock : datetime :=
  {| dt_date := {| year := 2024; month := 5; day := 17 |};
     hour := 18; minute := 30; second := 0; microsecond := 0 |}.

(** A world with the files [fs], all of them writable, and nothing attempted
    so far. *)
Definition world_of (fs : list (unicode * File)) : World :=
  {| files := list_to_map fs; unwritable := ∅; save_error := λ _, PermissionError;
     clock := example_clock; trace := [] |}.

(** The rows ("A", "X"), ("B", None), ("A", "Y"), (" A ", "X") under a
    header. *)
Definition reference_cells : gmap (nat * nat) Cell :=
  list_to_map
    [ ((1, 1), holding (VStr (u "Проект"))); ((1, 2), holding (VStr (u "Вид работ")));
      ((2, 1), holding (VStr (u "A"))); ((2, 2), holding (VStr (u "X")));
      ((3, 1), holding (VStr (u "B")));
      ((4, 1), holding (VStr (u "A"))); ((4, 2), holding (VStr (u "Y")));
      ((5, 1), holding (VStr (u " A "))); ((5, 2), holding (VStr (u "X"))) ]%nat.

Definition reference_example : Document := [ (REFERENCE_SHEET, reference_cells) ].

Definition reference_world : World := world_of [(example_path, Xlsx reference_example)].

(** The cells of an entry in row [r]. *)
Definition entry_row (r : nat) (d : date) (project work_type : unicode) (secs : Z)
    : list (nat * nat * Cell) :=
  [ ((r, 1), holding (VDate d)); ((r, 2), holding (VStr project));
    ((r, 3), holding (VStr work_type));
    ((r, 4), holding (VTimedelta {| days := 0; seconds := secs; microseconds := 0 |})) ]%nat.

Definition timesheet_header : list (nat * nat * Cell) :=
  [ ((1, 1), holding (VStr (u "Дата"))); ((1, 2), holding (VStr (u "Проект")));
    ((1, 3), holding (VStr (u "Вид работ")));
    ((1, 4), holding (VStr (u "Длительность"))) ]%nat.

(** Rows 2 and 4 hold entries; row 3 was cleared, its cells are left. *)
Definition gap_cells : gmap (nat * nat) Cell :=
  list_to_map
    (timesheet_header
     ++ entry_row 2 {| year := 2024; month := 5; day := 15 |} (u "P0") (u "W0") 600
     ++ [ ((3, 1), new_cell); ((3, 2), new_cell); ((3, 4), new_cell) ]%nat
     ++ entry_row 4 {| year := 2024; month := 5; day := 16 |} (u "P2") (u "W2") 7200).

Definition gap_example : Document :=
  [ (u "Notes", ∅); (TIMESHEET_SHEET, gap_cells) ].

Definition gap_sheet : Worksheet := read_sheet (TIMESHEET_SHEET, gap_cells).

Definition gap_world : World := world_of [(example_path, Xlsx gap_example)].

(** Row 2 shows blank: its only cell holds the empty text. *)
Definition blank_cells : gmap (nat * nat) Cell :=
  list_to_map (timesheet_header ++ [ ((2, 2), holding (VStr [])) ]%nat).

Definition blank_example : Document := [ (TIMESHEET_SHEET, blank_cells) ].

Definition blank_sheet : Worksheet := read_sheet (TIMESHEET_SHEET, blank_cells).

Definition blank_world : World := world_of [(example_path, Xlsx blank_example)].

(** A workbook with neither of the two sheets. *)
Definition foreign_example : Document := [ (u "Sheet1", ∅); (u "Sheet2", ∅) ].

Definition foreign_world : World := world_of [(example_path, Xlsx foreign_example)].

End Examples.

(** Further example workbooks. *)

Section FurtherExamples.
Context `{StyleLayer}.

(** A path that holds a file which is no workbook. *)
Definition text_world : World := world_of [(example_path, NotXlsx BadZipFile)].

(** The workbook with the cleared row, at a path that cannot be written. *)
Definition locked_world : World :=
  {| files := list_to_map [(example_path, Xlsx gap_example)];
     unwritable := {[ example_path ]}; save_error := λ _, PermissionError;
     clock := example_clock; trace := [] |}.

(** A workbook whose two sheets have no cells. *)
Definition bare_example : Document := [ (REFERENCE_SHEET, ∅); (TIMESHEET_SHEET, ∅) ].

Definition bare_world : World := world_of [(example_path, Xlsx bare_example)].

(** A workbook as [create_template] saves it. *)
Definition template_world : World := world_of [(example_path, Xlsx template_document)].

End FurtherExamples.

(** * The claims *)

Section Claims.
Context `{StyleLayer}.


(** C4.  An existing workbook without the sheet the operation needs:
    [load_reference_data] (the reference sheet) and [append_time_entry] (the
    timesheet) raise [ExcelStructureError]; the message holds the name of the
    expected sheet and the names of all sheets present, joined by commas; the
    files are as before and no save was attempted. *)
Theorem missing_sheet_raises_structure_error path w doc :
  files w !! path = Some (Xlsx doc) →
  (REFERENCE_SHEET ∉ doc.*1 →
   ∃ msg w',
     load_reference_data path w = (inl (ExcelStructureError msg), w')
     ∧ occurs_in REFERENCE_SHEET msg
     ∧ occurs_in (join (u ", ") doc.*1) msg
     ∧ (∀ name, name ∈ doc.*1 → occurs_in name msg)
     ∧ files w' = files w
     ∧ trace w' = trace w ++ [EvExists path; EvLoad path])
  ∧ (TIMESHEET_SHEET ∉ doc.*1 →
     ∀ project work_type elapsed_seconds finished_at,
     ∃ msg w',
       append_time_entry path project work_type elapsed_seconds finished_at w
       = (inl (ExcelStructureError msg), w')
       ∧ occurs_in TIMESHEET_SHEET msg
       ∧ occurs_in (join (u ", ") doc.*1) msg
       ∧ (∀ name, name ∈ doc.*1 → occurs_in name msg)
       ∧ files w' = files w
       ∧ trace w' = trace w ++ [EvExists path; EvLoad path]).
Proof.
  intros Hf.
  assert (∀ sheet, occurs_in sheet (structure_message sheet (read_document doc))
                   ∧ occurs_in (join (u ", ") doc.*1)
                               (structure_message sheet (read_document doc))
                   ∧ ∀ name, name ∈ doc.*1 →
                             occurs_in name (structure_message sheet (read_document doc)))
    as Hmsg.
  { intros sheet. unfold structure_message. rewrite sheetnames_read.
    assert (occurs_in (join (u ", ") doc.*1)
              (u "Workbook must contain sheet '" ++ sheet ++ u "'. Found: "
                 ++ join (u ", ") doc.*1)) as Hjoin
      by apply occurs_in_app_r, occurs_in_app_r, occurs_in_app_r, occurs_in_refl.
    split_and!; [|done|].
    - apply occurs_in_app_r, occurs_in_app_l, occurs_in_refl.
    - intros name Hname. eapply occurs_in_trans; [|exact Hjoin].
      by apply occurs_in_join. }
  split.
  - intros Hs%find_sheet_None. rewrite load_reference_data_run, Hf, Hs.
    destruct (Hmsg REFERENCE_SHEET) as (? & ? & ?).
    eexists _, _. by split_and!.
  - intros Hs%find_sheet_None project work_type secs fin.
    rewrite (append_missing_sheet _ _ _ _ _ _ _ Hf Hs).
    destruct (Hmsg TIMESHEET_SHEET) as (? & ? & ?).
    eexists _, _. by split_and!.
Qed.

(** C2.  [load_reference_data] returns the projects from column 1 and the
    work types from column 2 of the reference sheet, each column on its own:
    the first row is skipped, a row too short for a column counts as holding
    no value there, null values are skipped, the others are turned into text
    and stripped, empty texts are skipped, and a text is kept where it occurs
    first.  Each list is free of duplicates, holds exactly the non-empty
    stripped texts of its column, none of which starts or ends with
    whitespace, in the order of the column.  The same holds of the two lists
    computed from any rows whatever their lengths. *)
Theorem load_reference_data_normalises path w doc i sheet :
  files w !! path = Some (Xlsx doc) →
  find_sheet REFERENCE_SHEET doc = Some (i, sheet) →
  let body := drop 1 (iter_rows sheet) in
  let projects := normalise_spec (column 0 body) in
  let work_types := normalise_spec (column 1 body) in
  (∃ w', load_reference_data path w = (inr (projects, work_types), w')
         ∧ files w' = files w)
  ∧ (∀ rows, reference_lists rows
             = (normalise_spec (column 0 (drop 1 rows)),
                normalise_spec (column 1 (drop 1 rows))))
  ∧ (∀ values,
       _normalise values = normalise_spec values
       ∧ NoDup (normalise_spec values)
       ∧ normalise_spec values `sublist_of` omap candidate values
       ∧ (∀ text, text ∈ normalise_spec values
                  ↔ ∃ v, v ∈ values ∧ v ≠ VNone
                         ∧ text = strip (str v) ∧ text ≠ [])
       ∧ (∀ text c, text ∈ normalise_spec values →
                    head text = Some c ∨ last text = Some c → isspace c = false)).
Proof.
  intros Hf Hs body projects work_types. split_and!.
  - rewrite load_reference_data_run, Hf, Hs, reference_lists_spec. by eexists.
  - apply reference_lists_spec.
  - intros values. split_and!.
    + apply _normalise_spec.
    + apply first_occurrences_NoDup.
    + apply first_occurrences_sublist.
    + apply normalise_spec_elem.
    + apply normalise_spec_stripped.
Qed.

(** C1. A call of [append_time_entry] on an existing workbook with the
    timesheet sheet (whose cells lie at rows and columns from 1 on, as in
    every workbook) writes the entry to the row [t] that the scan of rows 2
    to [max_row] selects: a row is free iff its first four cells hold
    [None]; [t] is free, it is at least 2, and either it is the first free
    row of [2, max_row], every row of [2, t) being occupied, or no row of
    [2, max_row] is free and [t = max_row + 1].  Row 1 and the occupied rows
    before [t] show after the call what they showed before it. *)
Theorem entry_goes_to_first_free_row
    path project work_type secs fin w doc i sheet duration p' wt' :
  files w !! path = Some (Xlsx doc) →
  find_sheet TIMESHEET_SHEET doc = Some (i, sheet) →
  well_formed (_cells sheet) →
  timedelta_of_seconds secs = inr duration →
  check_string project = inr p' →
  check_string work_type = inr wt' →
  path ∉ unwritable w →
  ∃ t w' sheet',
    search_target_row sheet = (inr t, (search_target_row sheet).2)
    ∧ append_time_entry path project work_type secs fin w = (inr tt, w')
    ∧ files w' !! path = Some (Xlsx (<[i := (TIMESHEET_SHEET, _cells sheet')]> doc))
    ∧ entry_in sheet sheet' t (timestamp_of fin w) p' wt' duration
    ∧ (∀ r, free sheet r = true
            ↔ ∀ c, c ∈ [1; 2; 3; 4]%nat → value (view sheet (r, c)) = VNone)
    ∧ (2 ≤ t)%nat
    ∧ free sheet t = true
    ∧ ((t ≤ max_row sheet)%nat ∧ (∀ r, (2 ≤ r < t)%nat → free sheet r = false)
       ∨ t = (max_row sheet + 1)%nat
         ∧ (∀ r, (2 ≤ r ≤ max_row sheet)%nat → free sheet r = false))
    ∧ (∀ c, view sheet' (1%nat, c) = view sheet (1%nat, c))
    ∧ (∀ r c, (r < t)%nat → view sheet' (r, c) = view sheet (r, c)).
Proof.
  intros Hf Hs Hwf Hd Hp Hw Hpath.
  destruct (append_succeeds path project work_type secs fin w doc i sheet duration p' wt'
              Hf Hs Hd Hp Hw Hpath) as (w' & sheet' & Hrun & Hfiles & _ & Hentry).
  destruct (target_spec sheet (max_row_ge _ Hwf)) as [Hge Hcases].
  exists (target sheet), w', sheet'. split_and!.
  - by destruct (search_target_row_run sheet) as (ws' & -> & _).
  - done.
  - by rewrite Hfiles, lookup_insert_eq.
  - done.
  - apply free_iff.
  - done.
  - apply target_free.
  - destruct Hcases as [(? & _ & ?)|[? ?]]; [by left|by right].
  - intros c. apply (entry_in_other_rows _ _ _ _ _ _ _ _ _ Hentry). lia.
  - intros r c Hr. apply (entry_in_other_rows _ _ _ _ _ _ _ _ _ Hentry). lia.
Qed.

(** C10. Freeness is decided by [None] alone: a row of [2, max_row] one of
    whose first four cells holds the empty text (or any value other than
    [None]) is not free, the scan does not select it, and the call that
    writes the entry leaves the whole row as it was. *)
Theorem blank_text_row_is_skipped
    path project work_type secs fin w doc i sheet duration p' wt' r c v :
  files w !! path = Some (Xlsx doc) →
  find_sheet TIMESHEET_SHEET doc = Some (i, sheet) →
  timedelta_of_seconds secs = inr duration →
  check_string project = inr p' →
  check_string work_type = inr wt' →
  path ∉ unwritable w →
  (2 ≤ r ≤ max_row sheet)%nat →
  c ∈ [1; 2; 3; 4]%nat →
  value (view sheet (r, c)) = v →
  v = VStr [] ∨ v ≠ VNone →
  free sheet r = false
  ∧ (∃ ws', is_empty_row r sheet = (inr false, ws'))
  ∧ ∃ t w' sheet',
      search_target_row sheet = (inr t, (search_target_row sheet).2)
      ∧ t ≠ r
      ∧ append_time_entry path project work_type secs fin w = (inr tt, w')
      ∧ files w' !! path = Some (Xlsx (<[i := (TIMESHEET_SHEET, _cells sheet')]> doc))
      ∧ entry_in sheet sheet' t (timestamp_of fin w) p' wt' duration
      ∧ (∀ c', view sheet' (r, c') = view sheet (r, c')).
Proof.
  intros Hf Hs Hd Hp Hw Hpath Hr Hc Hv Hocc.
  assert (free sheet r = false) as Hfree.
  { apply (free_false _ _ c Hc). rewrite Hv. by destruct Hocc as [->|?]. }
  assert (target sheet ≠ r) as Hne.
  { intros <-. by rewrite target_free in Hfree. }
  split; [done|]. split.
  { destruct (is_empty_row_run r sheet) as (ws' & Hrun & _); [lia|].
    rewrite Hfree in Hrun. by exists ws'. }
  destruct (append_succeeds path project work_type secs fin w doc i sheet duration p' wt'
              Hf Hs Hd Hp Hw Hpath) as (w' & sheet' & Hrun & Hfiles & _ & Hentry).
  exists (target sheet), w', sheet'. split_and!; try done.
  - by destruct (search_target_row_run sheet) as (ws' & -> & _).
  - by rewrite Hfiles, lookup_insert_eq.
  - intros c'. by apply (entry_in_other_rows _ _ _ _ _ _ _ _ _ Hentry).
Qed.


(** C8. Setting the number format is best effort, whatever the style layer
    does with it.  The guarded statement alone never raises, and it leaves
    the value of the cell and every other cell as they are.  So on an
    existing workbook with the timesheet sheet the call returns exactly when
    the duration can be built, both texts are accepted by the cells and the
    file can be written: no outcome of [set_number_format] is among the
    conditions, while each of the other failures makes the call raise.  When
    the call returns, the duration is stored in column 4 of the selected
    row. *)
Theorem number_format_failure_is_ignored
    path project work_type secs fin w doc i sheet :
  files w !! path = Some (Xlsx doc) →
  find_sheet TIMESHEET_SHEET doc = Some (i, sheet) →
  (∀ k ws, is_Some (_cells ws !! k) →
     ∃ ws', try_pass (assign_number_format k (u "[h]:mm:ss")) ws = (inr tt, ws')
            ∧ title ws' = title ws
            ∧ value (view ws' k) = value (view ws k)
            ∧ (∀ k', k' ≠ k → _cells ws' !! k' = _cells ws !! k'))
  ∧ ((∃ w', append_time_entry path project work_type secs fin w = (inr tt, w'))
     ↔ (∃ duration p' wt',
          timedelta_of_seconds secs = inr duration
          ∧ check_string project = inr p'
          ∧ check_string work_type = inr wt'
          ∧ path ∉ unwritable w))
  ∧ (∀ duration p' wt',
       timedelta_of_seconds secs = inr duration →
       check_string project = inr p' →
       check_string work_type = inr wt' →
       path ∉ unwritable w →
       ∃ w' sheet',
         append_time_entry path project work_type secs fin w = (inr tt, w')
         ∧ files w' !! path
           = Some (Xlsx (<[i := (TIMESHEET_SHEET, _cells sheet')]> doc))
         ∧ entry_in sheet sheet' (target sheet) (timestamp_of fin w) p' wt' duration
         ∧ value (view sheet' (target sheet, 4%nat)) = VTimedelta duration)
  ∧ ((∃ e, timedelta_of_seconds secs = inl e)
     ∨ (∃ e, check_string project = inl e)
     ∨ (∃ e, check_string work_type = inl e) →
     ∃ e w', append_time_entry path project work_type secs fin w = (inl e, w')
             ∧ files w' = files w).
Proof.
  intros Hf Hs. split_and!.
  - intros k ws Hk. rewrite (try_pass_format_run k _ ws Hk).
    eexists. split; [done|]. split_and!.
    + apply store_title.
    + by rewrite view_store.
    + intros k' Hk'. by rewrite store_lookup_ne.
  - split.
    + intros (w' & Hrun).
      destruct (append_returns_inv _ _ _ _ _ _ _ Hrun)
        as (doc0 & i0 & sheet0 & duration & p' & wt' & _ & _ & Hd & Hp & Hw & Hpath).
      by exists duration, p', wt'.
    + intros (duration & p' & wt' & Hd & Hp & Hw & Hpath).
      destruct (append_succeeds path project work_type secs fin w doc i sheet
                  duration p' wt' Hf Hs Hd Hp Hw Hpath) as (w' & _ & Hrun & _).
      by exists w'.
  - intros duration p' wt' Hd Hp Hw Hpath.
    destruct (append_succeeds path project work_type secs fin w doc i sheet
                duration p' wt' Hf Hs Hd Hp Hw Hpath)
      as (w' & sheet' & Hrun & Hfiles & _ & Hentry).
    exists w', sheet'. split_and!; try done.
    + by rewrite Hfiles, lookup_insert_eq.
    + by destruct Hentry as (_ & _ & _ & ? & _).
  - intros Hfail.
    destruct (append_raises path project work_type secs fin w doc i sheet Hf Hs Hfail)
      as (e & Hrun).
    by exists e, (logged [EvExists path; EvLoad path] w).
Qed.

(** C9, as amended.  A negative [elapsed_seconds], whole or float, is not
    rejected as such: nothing is validated before the conversion, and what
    [timedelta(seconds=elapsed_seconds)] makes of the number decides.  Where
    the duration can be built, the call proceeds and stores it in column 4
    of the selected row, with whatever sign [timedelta] gives it.  Where
    [timedelta] raises, the call raises the same exception after the load,
    and no save is attempted.  For a whole number of seconds the duration
    can be built from -86399999913600 (999999999 days) on, and its number
    of days is negative; below that [timedelta] raises [OverflowError]. *)
Theorem negative_elapsed_seconds_are_not_rejected
    path project work_type (secs : Number) fin w doc i sheet p' wt' :
  files w !! path = Some (Xlsx doc) →
  find_sheet TIMESHEET_SHEET doc = Some (i, sheet) →
  check_string project = inr p' →
  check_string work_type = inr wt' →
  path ∉ unwritable w →
  negative secs = true →
  (∀ d, timedelta_of_seconds secs = inr d →
     ∃ w' sheet',
       append_time_entry path project work_type secs fin w = (inr tt, w')
       ∧ files w' !! path = Some (Xlsx (<[i := (TIMESHEET_SHEET, _cells sheet')]> doc))
       ∧ entry_in sheet sheet' (target sheet) (timestamp_of fin w) p' wt' d
       ∧ value (view sheet' (target sheet, 4%nat)) = VTimedelta d)
  ∧ (∀ e, timedelta_of_seconds secs = inl e →
       append_time_entry path project work_type secs fin w
       = (inl e, logged [EvExists path; EvLoad path] w))
  ∧ (∀ n : Z, secs = PyInt n →
       (-86399999913600 ≤ n →
          ∃ d, timedelta_of_seconds secs = inr d ∧ days d < 0)
       ∧ (n < -86399999913600 → timedelta_of_seconds secs = inl OverflowError)).
Proof.
  intros Hf Hs Hp Hw Hpath Hneg. split_and!.
  - intros d Hd.
    destruct (append_succeeds path project work_type secs fin w doc i sheet d p' wt'
                Hf Hs Hd Hp Hw Hpath) as (w' & sheet' & Hrun & Hfiles & _ & Hentry).
    exists w', sheet'. split_and!; try done.
    + by rewrite Hfiles, lookup_insert_eq.
    + by destruct Hentry as (_ & _ & _ & ? & _).
  - intros e Hd. by rewrite (append_found_sheet _ _ _ _ _ _ _ _ _ Hf Hs), Hd.
  - intros n ->. simpl in Hneg. apply Z.ltb_lt in Hneg.
    pose proof (Z.div_mod n 86400 ltac:(lia)) as Hdm.
    pose proof (Z.mod_pos_bound n 86400 ltac:(lia)) as Hm.
    rewrite timedelta_of_seconds_int. cbv zeta.
    split; intros Hlow.
    + destruct (Z.ltb_spec 999999999 (Z.abs (n / 86400))); [lia|].
      eexists. split; [done|]. simpl. lia.
    + destruct (Z.ltb_spec 999999999 (Z.abs (n / 86400))); [done|lia].
Qed.


(** C3. A call of [create_template] that returns has saved at [path] a
    document of exactly two sheets: first the reference sheet, then the
    timesheet sheet; the sheet "Sheet" that a new workbook starts with is
    not among them.  Each sheet reads back as one row, its header, so each
    has one header row and no data row: the cells of the reference sheet
    are those of columns 1 and 2 of row 1, the cells of the timesheet sheet
    those of columns 1 to 4 of row 1.  Every other file is the file it
    was. *)
Theorem create_template_shape path w w' :
  create_template path w = (inr tt, w') →
  ∃ reference timesheet,
    files w' !! path
    = Some (Xlsx [(REFERENCE_SHEET, reference); (TIMESHEET_SHEET, timesheet)])
    ∧ sheetnames (read_document
                    [(REFERENCE_SHEET, reference); (TIMESHEET_SHEET, timesheet)])
      = [REFERENCE_SHEET; TIMESHEET_SHEET]
    ∧ contains (read_document
                  [(REFERENCE_SHEET, reference); (TIMESHEET_SHEET, timesheet)])
               (u "Sheet") = false
    ∧ sheetnames new_workbook = [u "Sheet"]
    ∧ iter_rows (read_sheet (REFERENCE_SHEET, reference))
      = [[VStr (u "Проект"); VStr (u "Вид работ")]]
    ∧ iter_rows (read_sheet (TIMESHEET_SHEET, timesheet))
      = [[VStr (u "Дата"); VStr (u "Проект"); VStr (u "Вид работ");
          VStr (u "Длительность")]]
    ∧ drop 1 (iter_rows (read_sheet (REFERENCE_SHEET, reference))) = []
    ∧ drop 1 (iter_rows (read_sheet (TIMESHEET_SHEET, timesheet))) = []
    ∧ max_row (read_sheet (REFERENCE_SHEET, reference)) = 1%nat
    ∧ max_row (read_sheet (TIMESHEET_SHEET, timesheet)) = 1%nat
    ∧ dom reference = list_to_set [(1, 1); (1, 2)]%nat
    ∧ dom timesheet = list_to_set [(1, 1); (1, 2); (1, 3); (1, 4)]%nat
    ∧ (path ∉ unwritable w)
    ∧ (∀ q, q ≠ path → files w' !! q = files w !! q).
Proof.
  rewrite create_template_run. case_bool_decide as Hpath; [done|].
  intros [= <-].
  exists (header_row [u "Проект"; u "Вид работ"]),
    (header_row [u "Дата"; u "Проект"; u "Вид работ"; u "Длительность"]).
  simpl files. split_and!; try done; try (by vm_compute).
  - apply lookup_insert_eq.
  - intros q Hq. by apply lookup_insert_ne.
Qed.

End Claims.

(** * The claims on the example workbooks *)

Section OnExamples.
#[local] Existing Instance stored_formats.
#[local] Existing Instance stored_values.


(** C4 on a workbook whose sheets are "Sheet1" and "Sheet2". *)
Lemma missing_sheet_raises_structure_error_witness :
  (REFERENCE_SHEET ∉ (foreign_example (H := stored_formats)).*1)
  ∧ ∃ msg w', load_reference_data (H := stored_formats) example_path foreign_world
              = (inl (ExcelStructureError msg), w')
              ∧ occurs_in REFERENCE_SHEET msg
              ∧ occurs_in (u "Sheet1, Sheet2") msg
              ∧ files w' = files foreign_world.
Proof.
  assert (REFERENCE_SHEET ∉ (foreign_example (H := stored_formats)).*1) as Hmissing
    by compute_done.
  split; [exact Hmissing|].
  destruct (missing_sheet_raises_structure_error (H := stored_formats)
              example_path foreign_world foreign_example eq_refl) as [Hload _].
  destruct (Hload Hmissing) as (msg & w' & Hrun & Hname & Hnames & _ & Hfiles & _).
  by exists msg, w'.
Defined.

(** C2 on the rows ("A", "X"), ("B", None), ("A", "Y"), (" A ", "X"). *)
Lemma load_reference_data_normalises_witness :
  ∃ w', load_reference_data (H := stored_formats) example_path reference_world
        = (inr ([u "A"; u "B"], [u "X"; u "Y"]), w').
Proof.
  pose proof (load_reference_data_normalises (H := stored_formats)
                example_path reference_world reference_example 0%nat
                (read_sheet (REFERENCE_SHEET, reference_cells)) eq_refl
                ltac:(by vm_compute)) as Hthm.
  cbv zeta in Hthm. destruct Hthm as [(w' & Hload & _) _].
  exists w'. rewrite Hload. by vm_compute.
Defined.

(** C1 on a sheet whose rows 2 and 4 hold entries and whose row 3 was
    cleared: the entry goes to row 3. *)
Lemma entry_goes_to_first_free_row_witness :
  ∃ w' sheet',
    append_time_entry (H := stored_formats) example_path (u "P1") (u "W1") 3725 None
      gap_world = (inr tt, w')
    ∧ files w' !! example_path
      = Some (Xlsx (<[1%nat := (TIMESHEET_SHEET, _cells sheet')]> gap_example))
    ∧ entry_in gap_sheet sheet' 3 example_clock (u "P1") (u "W1")
        {| days := 0; seconds := 3725; microseconds := 0 |}.
Proof.
  destruct (entry_goes_to_first_free_row (H := stored_formats)
              example_path (u "P1") (u "W1") 3725 None gap_world gap_example 1%nat
              gap_sheet {| days := 0; seconds := 3725; microseconds := 0 |}
              (u "P1") (u "W1"))
    as (t & w' & sheet' & Hsearch & Hrun & Hfiles & Hentry & _);
    [reflexivity|by vm_compute|unfold well_formed; compute_done
    |reflexivity|by vm_compute|by vm_compute|compute_done|].
  assert (t = 3%nat) as -> by (vm_compute in Hsearch; congruence).
  by exists w', sheet'.
Defined.

(** C10 on a sheet whose row 2 holds only the empty text, in column 2: the
    row is skipped, the entry goes to row 3, and the empty text stays. *)
Lemma blank_text_row_is_skipped_witness :
  value (view (H := stored_formats) blank_sheet (2, 2)%nat) = VStr []
  ∧ free (H := stored_formats) blank_sheet 2 = false
  ∧ ∃ w' sheet',
      append_time_entry (H := stored_formats) example_path (u "P1") (u "W1") 3725 None
        blank_world = (inr tt, w')
      ∧ entry_in blank_sheet sheet' 3 example_clock (u "P1") (u "W1")
          {| days := 0; seconds := 3725; microseconds := 0 |}
      ∧ view sheet' (2, 2)%nat = view (H := stored_formats) blank_sheet (2, 2)%nat.
Proof.
  split; [reflexivity|].
  destruct (blank_text_row_is_skipped (H := stored_formats)
              example_path (u "P1") (u "W1") 3725 None blank_world blank_example 0%nat
              blank_sheet {| days := 0; seconds := 3725; microseconds := 0 |}
              (u "P1") (u "W1") 2%nat 2%nat (VStr []))
    as (Hfree & _ & t & w' & sheet' & Hsearch & _ & Hrun & _ & Hentry & Hrow);
    [reflexivity|by vm_compute|reflexivity|by vm_compute|by vm_compute|compute_done
    |by vm_compute|compute_done|reflexivity|by left|].
  split; [exact Hfree|].
  assert (t = 3%nat) as -> by (vm_compute in Hsearch; congruence).
  exists w', sheet'. split_and!; [exact Hrun|exact Hentry|apply Hrow].
Defined.



(** C8 with a style layer that refuses every number format: the call
    returns all the same, with the duration in column 4 of row 3. *)
Lemma number_format_failure_is_ignored_witness :
  set_number_format (StyleLayer := refused_formats) (u "[h]:mm:ss") tt
  = (inl StyleError, tt)
  ∧ ∃ w' sheet',
      append_time_entry (H := refused_formats) example_path (u "P1") (u "W1") 3725 None
        gap_world = (inr tt, w')
      ∧ files w' !! example_path
        = Some (Xlsx (<[1%nat := (TIMESHEET_SHEET, _cells sheet')]> gap_example))
      ∧ value (view sheet' (3, 4)%nat)
        = VTimedelta {| days := 0; seconds := 3725; microseconds := 0 |}.
Proof.
  split; [reflexivity|].
  destruct (number_format_failure_is_ignored (H := refused_formats)
              example_path (u "P1") (u "W1") 3725 None gap_world gap_example 1%nat
              gap_sheet) as (_ & _ & Hreturns & _);
    [reflexivity|by vm_compute|].
  destruct (Hreturns {| days := 0; seconds := 3725; microseconds := 0 |}
              (u "P1") (u "W1"))
    as (w' & sheet' & Hrun & Hfiles & _ & V4);
    [reflexivity|by vm_compute|by vm_compute|compute_done|].
  replace (target (H := refused_formats) gap_sheet) with 3%nat in V4 by (by vm_compute).
  by exists w', sheet'.
Defined.

(** C9 as amended, on half a second and on a tenth of a microsecond below
    zero, as floats: for -0.5 the call stores minus one day plus 86399
    seconds and 500000 microseconds, for -1e-7 the duration zero. *)
Lemma negative_elapsed_seconds_are_not_rejected_witness :
  negative (PyFloat (SpecFloat.S754_finite true 4503599627370496 (-53))) = true
  ∧ negative (PyFloat (SpecFloat.S754_finite true 7555786372591432 (-76))) = true
  ∧ (∃ w' sheet',
       append_time_entry (H := stored_formats) example_path (u "P1") (u "W1")
         (PyFloat (SpecFloat.S754_finite true 4503599627370496 (-53))) None gap_world
       = (inr tt, w')
       ∧ value (view sheet' (3, 4)%nat)
         = VTimedelta {| days := -1; seconds := 86399; microseconds := 500000 |})
  ∧ (∃ w' sheet',
       append_time_entry (H := stored_formats) example_path (u "P1") (u "W1")
         (PyFloat (SpecFloat.S754_finite true 7555786372591432 (-76))) None gap_world
       = (inr tt, w')
       ∧ value (view sheet' (3, 4)%nat)
         = VTimedelta {| days := 0; seconds := 0; microseconds := 0 |}).
Proof.
  split; [reflexivity|]. split; [reflexivity|]. split.
  - destruct (negative_elapsed_seconds_are_not_rejected (H := stored_formats)
                example_path (u "P1") (u "W1")
                (PyFloat (SpecFloat.S754_finite true 4503599627370496 (-53))) None
                gap_world gap_example 1%nat gap_sheet (u "P1") (u "W1"))
      as (Hstored & _);
      [reflexivity|by vm_compute|by vm_compute|by vm_compute|compute_done|reflexivity|].
    destruct (Hstored {| days := -1; seconds := 86399; microseconds := 500000 |})
      as (w' & sheet' & Hrun & _ & _ & V4); [by vm_compute|].
    replace (target (H := stored_formats) gap_sheet) with 3%nat in V4 by (by vm_compute).
    by exists w', sheet'.
  - destruct (negative_elapsed_seconds_are_not_rejected (H := stored_formats)
                example_path (u "P1") (u "W1")
                (PyFloat (SpecFloat.S754_finite true 7555786372591432 (-76))) None
                gap_world gap_example 1%nat gap_sheet (u "P1") (u "W1"))
      as (Hstored & _);
      [reflexivity|by vm_compute|by vm_compute|by vm_compute|compute_done|reflexivity|].
    destruct (Hstored {| days := 0; seconds := 0; microseconds := 0 |})
      as (w' & sheet' & Hrun & _ & _ & V4); [by vm_compute|].
    replace (target (H := stored_formats) gap_sheet) with 3%nat in V4 by (by vm_compute).
    by exists w', sheet'.
Defined.

(** C9 as the spec has it fails at -86400000000000 seconds, which are
    -1000000000 days: the workbook and its timesheet sheet are there,
    [timedelta] raises [OverflowError], and nothing is stored. *)
Lemma negative_elapsed_seconds_counterexample :
  -86400000000000 < 0
  ∧ files (gap_world (H := stored_formats)) !! example_path = Some (Xlsx gap_example)
  ∧ find_sheet (H := stored_formats) TIMESHEET_SHEET gap_example = Some (1%nat, gap_sheet)
  ∧ append_time_entry (H := stored_formats) example_path (u "P1") (u "W1")
      (-86400000000000) None gap_world
    = (inl OverflowError, logged [EvExists example_path; EvLoad example_path] gap_world).
Proof. split_and!; [lia|reflexivity|by vm_compute|by vm_compute]. Qed.



(** C3 on a world without files. *)
Lemma create_template_shape_witness :
  ∃ w' reference timesheet,
    create_template (H := stored_formats) example_path (world_of []) = (inr tt, w')
    ∧ files w' !! example_path
      = Some (Xlsx [(REFERENCE_SHEET, reference); (TIMESHEET_SHEET, timesheet)])
    ∧ iter_rows (read_sheet (REFERENCE_SHEET, reference))
      = [[VStr (u "Проект"); VStr (u "Вид работ")]]
    ∧ iter_rows (read_sheet (TIMESHEET_SHEET, timesheet))
      = [[VStr (u "Дата"); VStr (u "Проект"); VStr (u "Вид работ");
          VStr (u "Длительность")]].
Proof.
  set (run := create_template (H := stored_formats) example_path (world_of [])).
  assert (run = (inr tt, run.2)) as Hrun by (by vm_compute).
  destruct (create_template_shape (H := stored_formats)
              example_path (world_of []) run.2 Hrun)
    as (reference & timesheet & Hfiles & _ & _ & _ & Hr & Ht & _).
  by exists run.2, reference, timesheet.
Defined.

End OnExamples.

(** * Further properties of the operations *)

(** ** [_normalise] on its own result and on longer columns *)

Lemma lstrip_id s : (∀ c, head s = Some c → isspace c = false) → lstrip s = s.
Proof.
  destruct s as [|a s]; [done|]. intros Hs. simpl. by rewrite (Hs a).
Qed.

Lemma rstrip_id s : (∀ c, last s = Some c → isspace c = false) → rstrip s = s.
Proof.
  intros Hs. unfold rstrip. rewrite lstrip_id; [apply reverse_involutive|].
  intros c Hc. apply Hs. by rewrite <- (reverse_involutive s), last_reverse.
Qed.

Lemma strip_strip s : strip (strip s) = strip s.
Proof.
  unfold strip at 1.
  rewrite (lstrip_id (strip s)) by (intros c Hc; apply (strip_ends s); by left).
  apply rstrip_id. intros c Hc. apply (strip_ends s). by right.
Qed.

Lemma first_occurrences_NoDup_id l : NoDup l → first_occurrences l = l.
Proof.
  induction l as [|x l IH] using rev_ind; [done|].
  intros [Hl [Hx _]]%NoDup_app. rewrite first_occurrences_snoc, IH by done.
  rewrite bool_decide_eq_false_2; [done|].
  intros Hin. apply (Hx x Hin). left.
Qed.

Lemma first_occurrences_app l l' :
  first_occurrences (l ++ l')
  = first_occurrences l ++ filter (λ x, x ∉ l) (first_occurrences l').
Proof.
  induction l' as [|x l' IH] using rev_ind.
  { by rewrite !app_nil_r. }
  rewrite app_assoc, !first_occurrences_snoc, IH, filter_app, <- app_assoc.
  f_equal. f_equal.
  destruct (decide (x ∈ l')) as [Hl'|Hl'].
  - rewrite !bool_decide_eq_true_2; [done|done|]. apply elem_of_app. by right.
  - rewrite (bool_decide_eq_false_2 (x ∈ l')) by done.
    destruct (decide (x ∈ l)) as [Hl|Hl].
    + rewrite bool_decide_eq_true_2 by (apply elem_of_app; by left).
      by rewrite filter_cons_False by (by intros ?).
    + rewrite bool_decide_eq_false_2 by (by intros [?|?]%elem_of_app).
      by rewrite filter_cons_True.
Qed.

Lemma candidate_stripped t : strip t = t → t ≠ [] → candidate (VStr t) = Some t.
Proof. intros Ht Hne. apply candidate_Some. simpl. by rewrite Ht. Qed.

Lemma omap_candidate_stripped l :
  Forall (λ t, strip t = t ∧ t ≠ []) l → omap candidate (VStr <$> l) = l.
Proof.
  induction 1 as [|t l [Ht Hne] _ IH]; [done|].
  cbn [fmap list_fmap omap list_omap]. by rewrite candidate_stripped, IH.
Qed.

Lemma normalise_spec_texts values :
  Forall (λ t, strip t = t ∧ t ≠ []) (normalise_spec values).
Proof.
  apply Forall_forall. intros t (v & _ & _ & -> & Hne)%normalise_spec_elem.
  split; [apply strip_strip|done].
Qed.

(** X1. [_normalise] changes nothing in a list it has returned: the texts are
    stripped, none of them is empty, and none occurs twice. *)
Theorem _normalise_idempotent values :
  _normalise (VStr <$> _normalise values) = _normalise values.
Proof.
  rewrite !_normalise_spec. unfold normalise_spec at 1.
  rewrite omap_candidate_stripped by apply normalise_spec_texts.
  apply first_occurrences_NoDup_id, first_occurrences_NoDup.
Qed.

(** X2. Values added at the end of a column leave the texts of the column where
    they are and add, in their own order, those of their texts that the
    column did not have. *)
Theorem _normalise_app values more :
  _normalise (values ++ more)
  = _normalise values ++ filter (λ t, t ∉ _normalise values) (_normalise more).
Proof.
  rewrite !_normalise_spec. unfold normalise_spec.
  rewrite omap_app, first_occurrences_app. f_equal.
  apply list_filter_iff. intros t. by rewrite first_occurrences_elem.
Qed.

(** ** Sheets whose cells all lie in row 1 *)

Lemma max_list_all_one l : l ≠ [] → Forall (λ n, n = 1%nat) l → max_list l = 1%nat.
Proof.
  intros Hne Hall. destruct Hall as [|n l -> Hall]; [done|].
  simpl. clear Hne. induction Hall as [|m l -> _ IH]; [done|]. simpl in *. lia.
Qed.

Section Further.
Context `{StyleLayer}.

Lemma max_row_one ws :
  (∀ k c, _cells ws !! k = Some c → k.1 = 1%nat) → max_row ws = 1%nat.
Proof.
  intros Hrows. unfold max_row.
  destruct (map_to_list (_cells ws)) as [|kc l] eqn:E; [done|].
  apply max_list_all_one; [done|].
  apply Forall_fmap, Forall_forall. intros [k c] Hk. simpl.
  apply (Hrows k c), elem_of_map_to_list. by rewrite E.
Qed.

Lemma iter_rows_row_one ws :
  (∀ k c, _cells ws !! k = Some c → k.1 = 1%nat) → (length (iter_rows ws) ≤ 1)%nat.
Proof.
  intros Hrows. unfold iter_rows. rewrite (max_row_one ws Hrows).
  destruct (_current_row ws =? 0)%nat; simpl; lia.
Qed.

Lemma reference_lists_short rows :
  (length rows ≤ 1)%nat → reference_lists rows = ([], []).
Proof. destruct rows as [|row [|row' rows]]; simpl; [done|done|lia]. Qed.

(** ** Failures of [append_time_entry] in the order of the source *)

Lemma write_row_fails t timestamp project work_type duration ws e :
  (1 ≤ t)%nat →
  check_string project = inl e
  ∨ (∃ p', check_string project = inr p') ∧ check_string work_type = inl e →
  ∃ ws', write_row t timestamp project work_type duration ws = (inl e, ws').
Proof.
  intros Ht Hfail. unfold write_row.
  rewrite set_value_run, bind_value_other by (done || lia).
  rewrite set_value_run by (done || lia).
  destruct Hfail as [Hp|[[p' Hp] Hw]].
  { rewrite (bind_value_str_fail _ _ _ Hp). eauto. }
  rewrite (bind_value_str _ _ _ Hp).
  rewrite set_value_run by (done || lia).
  rewrite (bind_value_str_fail _ _ _ Hw). eauto.
Qed.

Lemma check_string_illegal s :
  existsb illegal_character (take (N.to_nat 32767) s) = true →
  check_string s = inl IllegalCharacterError.
Proof. intros Hs. unfold check_string. cbv zeta. by rewrite Hs. Qed.

Lemma check_string_total s :
  check_string s = inl IllegalCharacterError ∨ ∃ s', check_string s = inr s'.
Proof. unfold check_string. cbv zeta. destruct (existsb _ _); eauto. Qed.

(** X3. A file that the reader refuses: both operations raise the exception
    of the reader as it is, whichever it is ([zipfile.BadZipFile] for a file
    that is no archive), after the existence test and the attempt to load,
    and nothing is saved. *)
Theorem not_a_workbook_error_propagates path w e :
  files w !! path = Some (NotXlsx e) →
  load_reference_data path w
  = (inl e, logged [EvExists path; EvLoad path] w)
  ∧ (∀ project work_type elapsed_seconds finished_at,
       append_time_entry path project work_type elapsed_seconds finished_at w
       = (inl e, logged [EvExists path; EvLoad path] w))
  ∧ files (logged [EvExists path; EvLoad path] w) = files w.
Proof.
  intros Hf. split_and!; [|intros; by apply append_not_xlsx|done].
  by rewrite load_reference_data_run, Hf.
Qed.

(** X4. A project or a work type with a control character that a cell refuses
    (within the 32767 characters a cell keeps): the call raises
    [IllegalCharacterError] once the duration is built, whether or not the
    file could be written, and nothing is saved. *)
Theorem illegal_text_raises path project work_type secs fin w doc i sheet duration :
  files w !! path = Some (Xlsx doc) →
  find_sheet TIMESHEET_SHEET doc = Some (i, sheet) →
  timedelta_of_seconds secs = inr duration →
  existsb illegal_character (take (N.to_nat 32767) project) = true
  ∨ existsb illegal_character (take (N.to_nat 32767) work_type) = true →
  append_time_entry path project work_type secs fin w
  = (inl IllegalCharacterError, logged [EvExists path; EvLoad path] w)
  ∧ files (logged [EvExists path; EvLoad path] w) = files w
  ∧ trace (logged [EvExists path; EvLoad path] w)
    = trace w ++ [EvExists path; EvLoad path].
Proof.
  intros Hf Hs Hd Hbad. split; [|done].
  rewrite (append_found_sheet _ _ _ _ _ _ _ _ _ Hf Hs), Hd. cbv zeta.
  rewrite bind_run. destruct (search_target_row_run sheet) as (sheet' & -> & G).
  destruct (write_row_fails (target sheet) (timestamp_of fin w) project work_type
              duration sheet' IllegalCharacterError (target_ge_1 _)) as (ws' & ->);
    [|done].
  destruct (check_string_total project) as [Hp|Hp]; [by left|right].
  split; [done|]. destruct Hbad as [Hbad|Hbad]; apply check_string_illegal in Hbad.
  - destruct Hp as [p' Hp]. congruence.
  - done.
Qed.

(** X5. A file that cannot be opened for writing: the call raises the
    exception of the save ([PermissionError] for a file that is locked); the
    guard around the number format does not catch it, and the file is as it
    was. *)
Theorem save_failure_propagates
    path project work_type secs fin w doc i sheet duration p' wt' :
  files w !! path = Some (Xlsx doc) →
  find_sheet TIMESHEET_SHEET doc = Some (i, sheet) →
  timedelta_of_seconds secs = inr duration →
  check_string project = inr p' →
  check_string work_type = inr wt' →
  path ∈ unwritable w →
  ∃ w', append_time_entry path project work_type secs fin w
        = (inl (save_error w path), w')
        ∧ files w' = files w
        ∧ trace w' = trace w ++ [EvExists path; EvLoad path; EvSave path].
Proof.
  intros Hf Hs Hd Hp Hw Hpath.
  rewrite (append_unwritable _ _ _ _ _ _ _ _ _ _ _ _ Hf Hs Hd Hp Hw Hpath).
  by eexists.
Qed.

(** X6. A call of [append_time_entry] that raises has either attempted no
    save, and then no file is written: the files are as they were and the
    file operations attempted are the existence test and at most the load;
    or it has come to the save, everything before it having succeeded, and
    the exception is the one of the save. *)
Theorem append_failure_writes_nothing path project work_type secs fin w e w' :
  append_time_entry path project work_type secs fin w = (inl e, w') →
  (files w' = files w
   ∧ (trace w' = trace w ++ [EvExists path]
      ∨ trace w' = trace w ++ [EvExists path; EvLoad path]))
  ∨ (trace w' = trace w ++ [EvExists path; EvLoad path; EvSave path]
     ∧ e = save_error w path
     ∧ ∃ doc i sheet duration p' wt',
         files w !! path = Some (Xlsx doc)
         ∧ find_sheet TIMESHEET_SHEET doc = Some (i, sheet)
         ∧ timedelta_of_seconds secs = inr duration
         ∧ check_string project = inr p'
         ∧ check_string work_type = inr wt').
Proof.
  intros Hrun.
  destruct (files w !! path) as [[doc|e0]|] eqn:Hf.
  2: { rewrite (append_not_xlsx _ _ _ _ _ _ _ Hf) in Hrun. injection Hrun as <- <-.
       left. split; [done|by right]. }
  2: { rewrite (append_missing_file _ _ _ _ _ _ Hf) in Hrun. injection Hrun as <- <-.
       left. split; [done|by left]. }
  destruct (find_sheet TIMESHEET_SHEET doc) as [[i sheet]|] eqn:Hs.
  2: { rewrite (append_missing_sheet _ _ _ _ _ _ _ Hf Hs) in Hrun.
       injection Hrun as <- <-. left. split; [done|by right]. }
  assert ((∃ e, timedelta_of_seconds secs = inl e)
          ∨ (∃ e, check_string project = inl e)
          ∨ (∃ e, check_string work_type = inl e)
          ∨ ∃ duration p' wt', timedelta_of_seconds secs = inr duration
                               ∧ check_string project = inr p'
                               ∧ check_string work_type = inr wt') as Hcases.
  { destruct (timedelta_of_seconds secs); [eauto|].
    destruct (check_string project); [eauto|].
    destruct (check_string work_type); [eauto 6|]. do 3 right. eauto 6. }
  destruct Hcases as [Hfail|[Hfail|[Hfail|(duration & p' & wt' & Hd & Hp & Hw)]]].
  1-3: destruct (append_raises path project work_type secs fin w doc i sheet Hf Hs)
         as (e' & Hrun'); [eauto|];
       rewrite Hrun in Hrun'; injection Hrun' as -> ->;
       left; split; [done|by right].
  destruct (decide (path ∈ unwritable w)) as [Hpath|Hpath].
  - rewrite (append_unwritable _ _ _ _ _ _ _ _ _ _ _ _ Hf Hs Hd Hp Hw Hpath) in Hrun.
    injection Hrun as <- <-. right. split_and!; [done|done|].
    exists doc, i, sheet, duration, p', wt'. by split_and!.
  - destruct (append_ok path project work_type secs fin w doc i sheet duration p' wt'
                Hf Hs Hd Hp Hw Hpath) as (sheet' & _ & Hrun').
    by rewrite Hrun in Hrun'.
Qed.

(** X7. Building the template cannot fail: [create_template] does what the
    save of the template workbook does, so it returns exactly when [path]
    can be opened for writing, and an exception of the call is the one of
    that save ([PermissionError] for a locked file, [FileNotFoundError] for
    a missing directory). *)
Theorem create_template_returns_iff_writable path w :
  create_template path w = save (read_document template_document) path w
  ∧ ((∃ w', create_template path w = (inr tt, w')) ↔ path ∉ unwritable w)
  ∧ (∀ e w', create_template path w = (inl e, w') →
             e = save_error w path ∧ trace w' = trace w ++ [EvSave path]).
Proof.
  rewrite save_run, (write_read template_document), create_template_run.
  case_bool_decide as Hpath; split_and!.
  - done.
  - split; [by intros [? [=]]|done].
  - by intros e w' [= <- <-].
  - done.
  - split; [done|]. intros _. by eexists.
  - by intros e w' [=].
Qed.

(** X8. [load_reference_data] only reads: whatever it returns or raises, the
    files are as they were, and the file operations attempted are the
    existence test and, for an existing path, the load. *)
Theorem load_reference_data_reads_only path w :
  files (load_reference_data path w).2 = files w
  ∧ unwritable (load_reference_data path w).2 = unwritable w
  ∧ trace (load_reference_data path w).2
    = trace w ++ (if bool_decide (is_Some (files w !! path))
                  then [EvExists path; EvLoad path] else [EvExists path]).
Proof.
  rewrite load_reference_data_run.
  destruct (files w !! path) as [[doc|]|];
    rewrite ?bool_decide_is_Some_Some, ?bool_decide_is_Some_None; done.
Qed.

(** X9. A reference sheet whose cells all lie in row 1, or which has no cell at
    all: [load_reference_data] returns two empty lists; the header is never
    taken for data. *)
Theorem load_reference_data_without_rows path w doc i sheet :
  files w !! path = Some (Xlsx doc) →
  find_sheet REFERENCE_SHEET doc = Some (i, sheet) →
  (∀ k c, _cells sheet !! k = Some c → k.1 = 1%nat) →
  load_reference_data path w = (inr ([], []), logged [EvExists path; EvLoad path] w).
Proof.
  intros Hf Hs Hrows. rewrite load_reference_data_run, Hf, Hs.
  by rewrite reference_lists_short by (by apply iter_rows_row_one).
Qed.

(** X10. A timesheet sheet whose cells all lie in row 1, or which has no cell at
    all, not even a header: the entry goes to row 2. *)
Theorem first_entry_goes_to_row_2
    path project work_type secs fin w doc i sheet duration p' wt' :
  files w !! path = Some (Xlsx doc) →
  find_sheet TIMESHEET_SHEET doc = Some (i, sheet) →
  (∀ k c, _cells sheet !! k = Some c → k.1 = 1%nat) →
  timedelta_of_seconds secs = inr duration →
  check_string project = inr p' →
  check_string work_type = inr wt' →
  path ∉ unwritable w →
  ∃ w' sheet',
    append_time_entry path project work_type secs fin w = (inr tt, w')
    ∧ files w' !! path = Some (Xlsx (<[i := (TIMESHEET_SHEET, _cells sheet')]> doc))
    ∧ entry_in sheet sheet' 2 (timestamp_of fin w) p' wt' duration.
Proof.
  intros Hf Hs Hrows Hd Hp Hw Hpath.
  destruct (append_succeeds path project work_type secs fin w doc i sheet duration p' wt'
              Hf Hs Hd Hp Hw Hpath) as (w' & sheet' & Hrun & Hfiles & _ & Hentry).
  assert (target sheet = 2%nat) as Ht.
  { unfold target. by rewrite (max_row_one sheet Hrows). }
  rewrite Ht in Hentry. exists w', sheet'. split_and!; [done| |done].
  by rewrite Hfiles, lookup_insert_eq.
Qed.


(** X14. A number of seconds from 0 on: up to 86399999999999 the call returns
    and stores the duration of as many whole days and remaining seconds,
    the seconds themselves below one day; above, [timedelta] raises
    [OverflowError] and the call raises it, whatever the texts and the
    path, with nothing saved. *)
Theorem non_negative_elapsed_seconds_are_stored
    path project work_type secs fin w doc i sheet :
  files w !! path = Some (Xlsx doc) →
  find_sheet TIMESHEET_SHEET doc = Some (i, sheet) →
  0 ≤ secs →
  (secs ≤ 86399999999999 →
   ∀ p' wt',
     check_string project = inr p' →
     check_string work_type = inr wt' →
     path ∉ unwritable w →
     ∃ d w' sheet',
       timedelta_of_seconds secs = inr d
       ∧ append_time_entry path project work_type secs fin w = (inr tt, w')
       ∧ files w' !! path = Some (Xlsx (<[i := (TIMESHEET_SHEET, _cells sheet')]> doc))
       ∧ value (view sheet' (target sheet, 4%nat)) = VTimedelta d
       ∧ 0 ≤ days d
       ∧ 0 ≤ seconds d < 86400
       ∧ microseconds d = 0
       ∧ days d * 86400 + seconds d = secs
       ∧ (secs < 86400 → days d = 0 ∧ seconds d = secs))
  ∧ (86399999999999 < secs →
     append_time_entry path project work_type secs fin w
     = (inl OverflowError, logged [EvExists path; EvLoad path] w)).
Proof.
  intros Hf Hs Hpos.
  pose proof (Z.div_mod secs 86400 ltac:(lia)) as Hdm.
  pose proof (Z.mod_pos_bound secs 86400 ltac:(lia)) as Hm.
  split.
  - intros Hup p' wt' Hp Hw Hpath.
    assert (timedelta_of_seconds secs
            = inr {| days := secs / 86400; seconds := secs mod 86400;
                     microseconds := 0 |}) as Hd.
    { rewrite timedelta_of_seconds_int. cbv zeta.
      destruct (Z.ltb_spec 999999999 (Z.abs (secs / 86400))); [lia|done]. }
    destruct (append_succeeds path project work_type secs fin w doc i sheet _ p' wt'
                Hf Hs Hd Hp Hw Hpath) as (w' & sheet' & Hrun & Hfiles & _ & Hentry).
    eexists _, w', sheet'. split; [exact Hd|]. split_and!; try done.
    + by rewrite Hfiles, lookup_insert_eq.
    + by destruct Hentry as (_ & _ & _ & ? & _).
    + simpl. lia.
    + simpl. lia.
    + simpl. lia.
    + simpl. lia.
    + simpl. intros Hday. lia.
  - intros Hup.
    assert (timedelta_of_seconds secs = inl OverflowError) as Hd.
    { rewrite timedelta_of_seconds_int. cbv zeta.
      destruct (Z.ltb_spec 999999999 (Z.abs (secs / 86400))); [done|lia]. }
    by rewrite (append_found_sheet _ _ _ _ _ _ _ _ _ Hf Hs), Hd.
Qed.

(** ** What the outcome does not depend on *)

Lemma write_row_date t timestamp1 timestamp2 project work_type duration :
  dt_date timestamp1 = dt_date timestamp2 →
  write_row t timestamp1 project work_type duration
  = write_row t timestamp2 project work_type duration.
Proof. intros Hdate. unfold write_row. by rewrite Hdate. Qed.

(** X15. Of [finished_at], or of the clock when it is omitted, only the date
    counts: two calls that differ in the time of day alone do the same. *)
Theorem only_the_date_is_stored path project work_type secs fin1 fin2 w :
  dt_date (timestamp_of fin1 w) = dt_date (timestamp_of fin2 w) →
  append_time_entry path project work_type secs fin1 w
  = append_time_entry path project work_type secs fin2 w.
Proof.
  intros Hdate.
  destruct (files w !! path) as [[doc|]|] eqn:Hf.
  2: { by rewrite !(append_not_xlsx _ _ _ _ _ _ _ Hf). }
  2: { by rewrite !(append_missing_file _ _ _ _ _ _ Hf). }
  destruct (find_sheet TIMESHEET_SHEET doc) as [[i sheet]|] eqn:Hs.
  2: { by rewrite !(append_missing_sheet _ _ _ _ _ _ _ Hf Hs). }
  rewrite !(append_found_sheet _ _ _ _ _ _ _ _ _ Hf Hs). cbv zeta.
  destruct (timedelta_of_seconds secs) as [e|duration]; [done|].
  rewrite !bind_run. destruct (search_target_row sheet) as [[e|t] ws]; [done|].
  by rewrite (write_row_date t _ _ _ _ _ Hdate).
Qed.

(** X16. [create_template] overwrites: what the path held before, a
    workbook with entries or nothing, makes no difference to the files
    after the call. *)
Theorem create_template_overwrites path w1 w2 :
  path ∉ unwritable w1 →
  path ∉ unwritable w2 →
  (∀ q, q ≠ path → files w1 !! q = files w2 !! q) →
  ∃ w1' w2',
    create_template path w1 = (inr tt, w1')
    ∧ create_template path w2 = (inr tt, w2')
    ∧ files w1' = files w2'
    ∧ files w1' !! path = Some (Xlsx template_document).
Proof.
  intros Hp1 Hp2 Hsame. rewrite !create_template_run.
  rewrite !bool_decide_eq_false_2 by done.
  eexists _, _. split_and!; [done|done| |apply lookup_insert_eq].
  simpl. apply map_eq. intros q. destruct (decide (q = path)) as [->|Hq].
  - by rewrite !lookup_insert_eq.
  - rewrite !lookup_insert_ne by done. by apply Hsame.
Qed.

End Further.

(** * The further properties on the example workbooks *)

Section FurtherOnExamples.
#[local] Existing Instance stored_formats.

(** A file that is no archive, for which the reader raises
    [zipfile.BadZipFile]. *)
Lemma not_a_workbook_error_propagates_witness :
  files text_world !! example_path = Some (NotXlsx BadZipFile)
  ∧ load_reference_data example_path text_world
    = (inl BadZipFile,
       logged [EvExists example_path; EvLoad example_path] text_world)
  ∧ append_time_entry example_path (u "P1") (u "W1") 3725 None text_world
    = (inl BadZipFile,
       logged [EvExists example_path; EvLoad example_path] text_world).
Proof.
  split; [reflexivity|].
  destruct (not_a_workbook_error_propagates example_path text_world BadZipFile eq_refl)
    as (Hload & Happend & _).
  split; [exact Hload|apply Happend].
Defined.

(** A project that starts with the character of code 7. *)
Lemma illegal_text_raises_witness :
  existsb illegal_character (take (N.to_nat 32767) (7%N :: u "P1")) = true
  ∧ append_time_entry example_path (7%N :: u "P1") (u "W1") 3725 None gap_world
    = (inl IllegalCharacterError,
       logged [EvExists example_path; EvLoad example_path] gap_world).
Proof.
  split; [by vm_compute|].
  apply (illegal_text_raises example_path (7%N :: u "P1") (u "W1") 3725 None gap_world
           gap_example 1%nat gap_sheet
           {| days := 0; seconds := 3725; microseconds := 0 |});
    [reflexivity|by vm_compute|reflexivity|left; by vm_compute].
Defined.

(** The workbook at a path that cannot be written. *)
Lemma save_failure_propagates_witness :
  example_path ∈ unwritable locked_world
  ∧ ∃ w', append_time_entry example_path (u "P1") (u "W1") 3725 None locked_world
          = (inl PermissionError, w')
          ∧ files w' = files locked_world.
Proof.
  assert (example_path ∈ unwritable locked_world) as Hlocked by compute_done.
  split; [exact Hlocked|].
  destruct (save_failure_propagates example_path (u "P1") (u "W1") 3725 None
              locked_world gap_example 1%nat gap_sheet
              {| days := 0; seconds := 3725; microseconds := 0 |} (u "P1") (u "W1"))
    as (w' & Hrun & Hfiles & _);
    [reflexivity|by vm_compute|reflexivity|by vm_compute|by vm_compute|exact Hlocked|].
  by exists w'.
Defined.

(** The call on a workbook without the timesheet sheet raises before a save,
    and the files are as they were. *)
Lemma append_failure_writes_nothing_witness :
  ∃ msg w',
    append_time_entry example_path (u "P1") (u "W1") 3725 None foreign_world
    = (inl (ExcelStructureError msg), w')
    ∧ files w' = files foreign_world
    ∧ trace w' = [EvExists example_path; EvLoad example_path].
Proof.
  assert (append_time_entry example_path (u "P1") (u "W1") 3725 None foreign_world
          = (inl (ExcelStructureError
                    (structure_message TIMESHEET_SHEET (read_document foreign_example))),
             logged [EvExists example_path; EvLoad example_path] foreign_world)) as Hrun
    by (by vm_compute).
  eexists _, _. split; [exact Hrun|].
  destruct (append_failure_writes_nothing _ _ _ _ _ _ _ _ Hrun)
    as [[Hfiles _]|[Htrace _]]; [by split|discriminate Htrace].
Defined.


(** 90000 seconds are one day and one hour. *)
Lemma non_negative_elapsed_seconds_are_stored_witness :
  str (VTimedelta {| days := 1; seconds := 3600; microseconds := 0 |})
  = u "1 day, 1:00:00"
  ∧ ∃ w' sheet',
      append_time_entry example_path (u "P1") (u "W1") 90000 None gap_world
      = (inr tt, w')
      ∧ value (view sheet' (3, 4)%nat)
        = VTimedelta {| days := 1; seconds := 3600; microseconds := 0 |}.
Proof.
  split; [by vm_compute|].
  destruct (non_negative_elapsed_seconds_are_stored
              example_path (u "P1") (u "W1") 90000 None gap_world gap_example 1%nat
              gap_sheet) as [Hstored _]; [reflexivity|by vm_compute|lia|].
  destruct (Hstored ltac:(lia) (u "P1") (u "W1"))
    as (d & w' & sheet' & Hd & Hrun & _ & V4 & _);
    [by vm_compute|by vm_compute|compute_done|].
  assert (d = {| days := 1; seconds := 3600; microseconds := 0 |}) as ->
    by (vm_compute in Hd; congruence).
  replace (target gap_sheet) with 3%nat in V4 by (by vm_compute).
  by exists w', sheet'.
Defined.

(** A reference sheet that holds its header and nothing else. *)
Lemma load_reference_data_without_rows_witness :
  load_reference_data example_path template_world
  = (inr ([], []), logged [EvExists example_path; EvLoad example_path] template_world).
Proof.
  apply (load_reference_data_without_rows example_path template_world template_document
           0%nat (read_sheet (REFERENCE_SHEET,
                              header_row [u "Проект"; u "Вид работ"])));
    [reflexivity|by vm_compute|].
  change (map_Forall (λ (k : nat * nat) (_ : Cell), k.1 = 1%nat)
            (_cells (read_sheet (REFERENCE_SHEET,
                                 header_row [u "Проект"; u "Вид работ"])))).
  compute_done.
Defined.

(** A timesheet sheet without any cell. *)
Lemma first_entry_goes_to_row_2_witness :
  ∃ w' sheet',
    append_time_entry example_path (u "P1") (u "W1") 3725 None bare_world = (inr tt, w')
    ∧ entry_in (read_sheet (TIMESHEET_SHEET, ∅)) sheet' 2 example_clock
        (u "P1") (u "W1") {| days := 0; seconds := 3725; microseconds := 0 |}.
Proof.
  destruct (first_entry_goes_to_row_2 example_path (u "P1") (u "W1") 3725 None
              bare_world bare_example 1%nat (read_sheet (TIMESHEET_SHEET, ∅))
              {| days := 0; seconds := 3725; microseconds := 0 |} (u "P1") (u "W1"))
    as (w' & sheet' & Hrun & _ & Hentry);
    [reflexivity|by vm_compute| |reflexivity|by vm_compute|by vm_compute|compute_done|].
  { intros k c Hc. rewrite cells_read_sheet in Hc. simpl in Hc.
    by rewrite lookup_empty in Hc. }
  by exists w', sheet'.
Defined.

(** A call at nine in the morning of the day of the clock, and a call
    without [finished_at]. *)
Lemma only_the_date_is_stored_witness :
  append_time_entry example_path (u "P1") (u "W1") 3725
    (Some {| dt_date := {| year := 2024; month := 5; day := 17 |};
             hour := 9; minute := 0; second := 0; microsecond := 0 |}) gap_world
  = append_time_entry example_path (u "P1") (u "W1") 3725 None gap_world.
Proof. apply only_the_date_is_stored. reflexivity. Defined.

(** A path without a file and a path with the workbook of the cleared
    row. *)
Lemma create_template_overwrites_witness :
  ∃ w1' w2',
    create_template example_path (world_of []) = (inr tt, w1')
    ∧ create_template example_path gap_world = (inr tt, w2')
    ∧ files w1' = files w2'.
Proof.
  destruct (create_template_overwrites example_path (world_of []) gap_world)
    as (w1' & w2' & Hrun1 & Hrun2 & Hfiles & _); [compute_done|compute_done| |].
  { intros q Hq. simpl. rewrite lookup_insert_ne by done. done. }
  by exists w1', w2'.
Defined.

End FurtherOnExamples.
